(** * database_extractor: time windows, offsets, date sequences and range walks

    A shallow embedding of [src/src/database_extractor/database_extractor.py]
    and of the helpers of [src/main.py], together with the parts of Python's
    [datetime] module they rely on (ordinal calendar, [timedelta] arithmetic,
    [strftime]/[strptime] with the format ["%Y-%m-%dT%H:%M:%SZ"]). *)

From Stdlib Require Import ZArith List String Ascii Bool Lia.
Import ListNotations.
Open Scope Z_scope.

(** ** Python exceptions and a small error monad *)

Inductive exc : Type :=
| TypeError
| ValueError
| OverflowError
| KeyError
| AttributeError.

Inductive result (A : Type) : Type :=
| Ok (a : A)
| Exc (e : exc).
Arguments Ok {A} a.
Arguments Exc {A} e.

Definition bind {A B} (m : result A) (k : A -> result B) : result B :=
  match m with
  | Ok a => k a
  | Exc e => Exc e
  end.

Notation "'let*' p ':=' m 'in' k" :=
  (bind m (fun x => match x with p => k end))
  (at level 200, p pattern, m at level 100, k at level 200).

Notation "'let?' p ':=' m 'in' k" :=
  (match m with Some p => k | None => None end)
  (at level 200, p pattern, m at level 100, k at level 200).

(** ** Python's proleptic Gregorian calendar ([datetime.py] helpers) *)

Module Cal.

Definition is_leap (y : Z) : bool :=
  (y mod 4 =? 0) && (negb (y mod 100 =? 0) || (y mod 400 =? 0)).

Definition DAYS_IN_MONTH : list Z :=
  [-1; 31; 28; 31; 30; 31; 30; 31; 31; 30; 31; 30; 31].

Definition DAYS_BEFORE_MONTH : list Z :=
  [-1; 0; 31; 59; 90; 120; 151; 181; 212; 243; 273; 304; 334].

Definition days_in_month (y m : Z) : Z :=
  if (m =? 2) && is_leap y then 29 else nth (Z.to_nat m) DAYS_IN_MONTH 0.

Definition days_before_month (y m : Z) : Z :=
  nth (Z.to_nat m) DAYS_BEFORE_MONTH 0
  + (if (m >? 2) && is_leap y then 1 else 0).

Definition days_before_year (y : Z) : Z :=
  let y := y - 1 in y * 365 + y / 4 - y / 100 + y / 400.

Definition ymd2ord (y m d : Z) : Z :=
  days_before_year y + days_before_month y m + d.

Definition DI400Y : Z := 146097.
Definition DI100Y : Z := 36524.
Definition DI4Y : Z := 1461.
Definition MAXORDINAL : Z := 3652059.

(** The body of [_ord2ymd] after the 400-year cycles are taken out: [n] is
    the day index inside the cycle; the year is counted from 1. *)
Definition ord2ymd_in_cycle (n : Z) : Z * Z * Z :=
  let n100 := n / DI100Y in
  let n := n mod DI100Y in
  let n4 := n / DI4Y in
  let n := n mod DI4Y in
  let n1 := n / 365 in
  let n := n mod 365 in
  let year := 1 + (n100 * 100 + n4 * 4 + n1) in
  if (n1 =? 4) || (n100 =? 4) then (year - 1, 12, 31) else
  let leapyear := (n1 =? 3) && (negb (n4 =? 24) || (n100 =? 3)) in
  let month := Z.shiftr (n + 50) 5 in
  let preceding := nth (Z.to_nat month) DAYS_BEFORE_MONTH 0
                   + (if (month >? 2) && leapyear then 1 else 0) in
  if preceding >? n then
    let month := month - 1 in
    let preceding := preceding - (nth (Z.to_nat month) DAYS_IN_MONTH 0
                                  + (if (month =? 2) && leapyear then 1 else 0)) in
    (year, month, n - preceding + 1)
  else (year, month, n - preceding + 1).

Definition ord2ymd (n : Z) : Z * Z * Z :=
  let n := n - 1 in
  let n400 := n / DI400Y in
  let n := n mod DI400Y in
  let '(y, m, d) := ord2ymd_in_cycle n in
  (n400 * 400 + y, m, d).

End Cal.

(** ** [datetime.datetime] (naive) and [datetime.timedelta] *)

Record datetime : Type := mkdt {
  year : Z; month : Z; day : Z;
  hour : Z; minute : Z; second : Z; microsecond : Z }.

Definition US_PER_DAY : Z := 86400000000.

(** A [timedelta] is its total number of microseconds; construction and
    arithmetic raise [OverflowError] outside [timedelta.min .. timedelta.max]. *)
Definition TD_MIN : Z := -999999999 * US_PER_DAY.
Definition TD_MAX : Z := 1000000000 * US_PER_DAY - 1.

Definition mk_td (x : Z) : result Z :=
  if (TD_MIN <=? x) && (x <=? TD_MAX) then Ok x else Exc OverflowError.

(** [timedelta(days=d, hours=h, minutes=m, seconds=s)] with integer arguments. *)
Definition timedelta_dhms (d h m s : Z) : result Z :=
  mk_td ((((d * 24 + h) * 60 + m) * 60 + s) * 1000000).

Definition td_add (a b : Z) : result Z := mk_td (a + b).
Definition td_sub (a b : Z) : result Z := mk_td (a - b).

Definition toordinal (d : datetime) : Z := Cal.ymd2ord (year d) (month d) (day d).

Definition dt_to_us (d : datetime) : Z :=
  (toordinal d * 86400 + hour d * 3600 + minute d * 60 + second d) * 1000000
  + microsecond d.

Definition dt_of_us (x : Z) : datetime :=
  let days := x / US_PER_DAY in
  let secs := (x mod US_PER_DAY) / 1000000 in
  let us := x mod 1000000 in
  let '(y, m, d) := Cal.ord2ymd days in
  mkdt y m d (secs / 3600) ((secs mod 3600) / 60) (secs mod 60) us.

(** [datetime.__add__(timedelta)]: the result must have an ordinal in
    [1 .. MAXORDINAL], otherwise [OverflowError("date value out of range")]. *)
Definition dt_add (d : datetime) (td : Z) : result datetime :=
  let x := dt_to_us d + td in
  let days := x / US_PER_DAY in
  if (0 <? days) && (days <=? Cal.MAXORDINAL) then Ok (dt_of_us x)
  else Exc OverflowError.

(** [datetime.__sub__(timedelta)] is [self + -other]. *)
Definition dt_sub (d : datetime) (td : Z) : result datetime :=
  let* n := mk_td (- td) in dt_add d n.

(** [datetime.__sub__(datetime)] gives the [timedelta] between the two. *)
Definition dt_diff (a b : datetime) : Z := dt_to_us a - dt_to_us b.

(** Naive [datetime] comparison is lexicographic on the fields. *)
Definition dt_key (d : datetime) : list Z :=
  [year d; month d; day d; hour d; minute d; second d; microsecond d].

Fixpoint lex_le (a b : list Z) : bool :=
  match a, b with
  | x :: a', y :: b' => (x <? y) || ((x =? y) && lex_le a' b')
  | _, _ => true
  end.

Definition dt_le (a b : datetime) : bool := lex_le (dt_key a) (dt_key b).
Definition dt_lt (a b : datetime) : bool := negb (dt_le b a).

(** The field ranges the [datetime] constructor enforces. *)
Definition valid_dtb (d : datetime) : bool :=
  (1 <=? year d) && (year d <=? 9999)
  && (1 <=? month d) && (month d <=? 12)
  && (1 <=? day d) && (day d <=? Cal.days_in_month (year d) (month d))
  && (0 <=? hour d) && (hour d <? 24)
  && (0 <=? minute d) && (minute d <? 60)
  && (0 <=? second d) && (second d <? 60)
  && (0 <=? microsecond d) && (microsecond d <? 1000000).

(** ** [strftime] and [strptime] with [DEFAULT_TIME_FORMAT = "%Y-%m-%dT%H:%M:%SZ"]

    [%Y] is written with four digits (zero-padded, as CPython does on every
    platform since the century normalisation of [%Y]). *)

Definition digit (n : Z) : ascii := ascii_of_nat (48 + Z.to_nat n).

Definition pad2 (n : Z) : string :=
  String (digit (n / 10)) (String (digit (n mod 10)) EmptyString).

Definition pad4 (n : Z) : string :=
  String (digit (n / 1000)) (String (digit ((n / 100) mod 10))
    (String (digit ((n / 10) mod 10)) (String (digit (n mod 10)) EmptyString))).

Definition strftime (d : datetime) : string :=
  (pad4 (year d) ++ "-" ++ pad2 (month d) ++ "-" ++ pad2 (day d) ++ "T"
   ++ pad2 (hour d) ++ ":" ++ pad2 (minute d) ++ ":" ++ pad2 (second d) ++ "Z")%string.

(** [_strptime] turns the format into the regular expression
    [(?P<Y>\d\d\d\d)-(?P<m>1[0-2]|0[1-9]|[1-9])-(?P<d>3[01]|[12]\d|0[1-9]|[1-9]| [1-9])T(?P<H>2[0-3]|[0-1]\d|\d):(?P<M>[0-5]\d|\d):(?P<S>6[0-1]|[0-5]\d|\d)Z],
    compiled with [IGNORECASE], and requires it to match the whole string.
    Each field is followed by a literal that is not a digit, so trying the
    alternatives of a field in order and keeping the first that matches is
    what the backtracking matcher does.  Input is ASCII text. *)

Definition dval (c : ascii) : Z := Z.of_nat (nat_of_ascii c) - 48.

Definition drange (lo hi : Z) (c : ascii) : bool :=
  (48 <=? Z.of_nat (nat_of_ascii c)) && (Z.of_nat (nat_of_ascii c) <=? 57)
  && (lo <=? dval c) && (dval c <=? hi).

Definition is_digit : ascii -> bool := drange 0 9.

Definition field_parser : Type := string -> option (Z * string).

(** One alternative: two characters in the given classes. *)
Definition two (p1 p2 : ascii -> bool) : field_parser := fun s =>
  match s with
  | String c1 (String c2 r) =>
      if p1 c1 && p2 c2 then Some (10 * dval c1 + dval c2, r) else None
  | _ => None
  end.

(** One alternative: a single character in the given class. *)
Definition one (p : ascii -> bool) : field_parser := fun s =>
  match s with
  | String c r => if p c then Some (dval c, r) else None
  | _ => None
  end.

(** The alternative [" [1-9]"] of [%d]. *)
Definition space_digit : field_parser := fun s =>
  match s with
  | String c1 (String c2 r) =>
      if Ascii.eqb c1 " "%char && drange 1 9 c2 then Some (dval c2, r) else None
  | _ => None
  end.

Fixpoint first_of (ps : list field_parser) : field_parser := fun s =>
  match ps with
  | [] => None
  | p :: ps' => match p s with Some r => Some r | None => first_of ps' s end
  end.

Definition p_Y : field_parser := fun s =>
  match s with
  | String a (String b (String c (String d r))) =>
      if is_digit a && is_digit b && is_digit c && is_digit d
      then Some (1000 * dval a + 100 * dval b + 10 * dval c + dval d, r)
      else None
  | _ => None
  end.

Definition p_m : field_parser :=
  first_of [two (drange 1 1) (drange 0 2); two (drange 0 0) (drange 1 9);
            one (drange 1 9)].
Definition p_d : field_parser :=
  first_of [two (drange 3 3) (drange 0 1); two (drange 1 2) is_digit;
            two (drange 0 0) (drange 1 9); one (drange 1 9); space_digit].
Definition p_H : field_parser :=
  first_of [two (drange 2 2) (drange 0 3); two (drange 0 1) is_digit; one is_digit].
Definition p_M : field_parser :=
  first_of [two (drange 0 5) is_digit; one is_digit].
Definition p_S : field_parser :=
  first_of [two (drange 6 6) (drange 0 1); two (drange 0 5) is_digit; one is_digit].

Definition lower (c : ascii) : ascii :=
  let n := nat_of_ascii c in
  if ((65 <=? n) && (n <=? 90))%nat then ascii_of_nat (n + 32) else c.

(** A literal character of the format, matched ignoring case. *)
Definition lit (l : ascii) (s : string) : option string :=
  match s with
  | String c r => if Ascii.eqb (lower c) (lower l) then Some r else None
  | EmptyString => None
  end.

(** [datetime.strptime(s, DEFAULT_TIME_FORMAT)]; [None] is [ValueError]
    (no match, unconverted data left, or a field the constructor rejects). *)
Definition strptime (s : string) : option datetime :=
  let? (y, s) := p_Y s in
  let? s := lit "-"%char s in
  let? (mo, s) := p_m s in
  let? s := lit "-"%char s in
  let? (d, s) := p_d s in
  let? s := lit "T"%char s in
  let? (h, s) := p_H s in
  let? s := lit ":"%char s in
  let? (mi, s) := p_M s in
  let? s := lit ":"%char s in
  let? (se, s) := p_S s in
  let? s := lit "Z"%char s in
  match s with
  | EmptyString =>
      let r := mkdt y mo d h mi se 0 in
      if valid_dtb r then Some r else None
  | _ => None
  end.

Definition strptime_r (s : string) : result datetime :=
  match strptime s with Some d => Ok d | None => Exc ValueError end.

Example strptime_ex :
  strptime "2024-05-16T10:00:00Z" = Some (mkdt 2024 5 16 10 0 0 0).
Proof. vm_compute. reflexivity. Qed.

Example strptime_ex2 :
  strptime "2024-5-6t1:2:3z" = Some (mkdt 2024 5 6 1 2 3 0).
Proof. vm_compute. reflexivity. Qed.

Example strftime_ex :
  strftime (mkdt 2024 5 6 1 2 3 7) = "2024-05-06T01:02:03Z"%string.
Proof. vm_compute. reflexivity. Qed.

Example dt_add_ex :
  dt_add (mkdt 2024 2 28 23 0 0 0) (2 * 3600 * 1000000)
  = Ok (mkdt 2024 2 29 1 0 0 0).
Proof. vm_compute. reflexivity. Qed.

Example dt_add_ex2 :
  dt_add (mkdt 2023 12 31 23 0 0 0) (2 * 3600 * 1000000)
  = Ok (mkdt 2024 1 1 1 0 0 0).
Proof. vm_compute. reflexivity. Qed.

(** ** Python values and the binary operators [+] and [-]

    The operand kinds the module meets: [int], [str], [list], [None],
    [timedelta], [datetime] and [DeltaTime]. *)

Record DeltaTime : Type := mkDeltaTime {
  days : Z; hours : Z; minutes : Z; seconds : Z }.

#[local] Set Warnings "-register-all".
Inductive pyval : Type :=
| PInt (z : Z)
| PStr (s : string)
| PList (l : list pyval)
| PNone
| PTimedelta (t : Z)
| PDatetime (d : datetime)
| PDelta (o : DeltaTime).

(** [DeltaTime.to_timedelta] *)
Definition to_timedelta (o : DeltaTime) : result Z :=
  timedelta_dhms (days o) (hours o) (minutes o) (seconds o).

(** [DeltaTime.__add__]; [timedelta + datetime] is served by
    [datetime.__radd__]. *)
Definition DeltaTime_add (self : DeltaTime) (other : pyval) : result pyval :=
  match other with
  | PTimedelta t =>
      let* a := to_timedelta self in let* r := td_add a t in Ok (PTimedelta r)
  | PStr s =>
      let* a := to_timedelta self in
      let* d := strptime_r s in
      let* r := dt_add d a in Ok (PDatetime r)
  | PDatetime d =>
      let* a := to_timedelta self in let* r := dt_add d a in Ok (PDatetime r)
  | PDelta o =>
      let* a := to_timedelta self in
      let* b := to_timedelta o in
      let* r := td_add a b in Ok (PTimedelta r)
  | _ => Exc TypeError
  end.

(** [DeltaTime.__radd__] *)
Definition DeltaTime_radd (self : DeltaTime) (other : pyval) : result pyval :=
  DeltaTime_add self other.

(** [DeltaTime.__sub__]; [timedelta - datetime] has no implementation on
    either side and raises [TypeError]. *)
Definition DeltaTime_sub (self : DeltaTime) (other : pyval) : result pyval :=
  match other with
  | PTimedelta t =>
      let* a := to_timedelta self in let* r := td_sub a t in Ok (PTimedelta r)
  | PStr s =>
      let* a := to_timedelta self in
      let* _ := strptime_r s in
      Exc TypeError
  | PDatetime d =>
      let* a := to_timedelta self in let* r := dt_sub d a in Ok (PDatetime r)
  | PDelta o =>
      let* a := to_timedelta self in
      let* b := to_timedelta o in
      let* r := td_sub a b in Ok (PTimedelta r)
  | _ => Exc TypeError
  end.

(** [DeltaTime.__rsub__] *)
Definition DeltaTime_rsub (self : DeltaTime) (other : pyval) : result pyval :=
  DeltaTime_sub self other.

(** [x + y]: [x.__add__(y)] first; when it returns [NotImplemented] (the
    built-in types do so for a [DeltaTime]), [y.__radd__(x)]. *)
Definition py_add (x y : pyval) : result pyval :=
  match x, y with
  | PDelta o, _ => DeltaTime_add o y
  | PInt a, PInt b => Ok (PInt (a + b))
  | PStr a, PStr b => Ok (PStr (a ++ b))
  | PList a, PList b => Ok (PList (a ++ b))
  | PTimedelta a, PTimedelta b => let* r := td_add a b in Ok (PTimedelta r)
  | PTimedelta a, PDatetime d => let* r := dt_add d a in Ok (PDatetime r)
  | PDatetime d, PTimedelta a => let* r := dt_add d a in Ok (PDatetime r)
  | _, PDelta o => DeltaTime_radd o x
  | _, _ => Exc TypeError
  end.

(** [x - y], dispatched the same way through [__sub__] and [__rsub__]. *)
Definition py_sub (x y : pyval) : result pyval :=
  match x, y with
  | PDelta o, _ => DeltaTime_sub o y
  | PInt a, PInt b => Ok (PInt (a - b))
  | PTimedelta a, PTimedelta b => let* r := td_sub a b in Ok (PTimedelta r)
  | PDatetime d, PTimedelta a => let* r := dt_sub d a in Ok (PDatetime r)
  | PDatetime a, PDatetime b => Ok (PTimedelta (dt_diff a b))
  | _, PDelta o => DeltaTime_rsub o x
  | _, _ => Exc TypeError
  end.

Definition HOUR : Z := 3600 * 1000000.

Example py_add_str_ex :
  py_add (PStr "2024-05-16T10:00:00Z") (PDelta (mkDeltaTime 0 (-2) 0 0))
  = Ok (PDatetime (mkdt 2024 5 16 8 0 0 0)).
Proof. vm_compute. reflexivity. Qed.

(** ** [construct_query_time_endpoints] *)

(** An offset argument: a [DeltaTime], or a tuple or list of integers that
    is spread into the [DeltaTime] constructor. *)
Inductive offset_arg : Type :=
| OffDelta (o : DeltaTime)
| OffSeq (l : list Z).

(** [DeltaTime] applied to the spread list: missing trailing arguments default to 0, more than
    four positional arguments raise [TypeError]. *)
Definition DeltaTime_of_seq (l : list Z) : result DeltaTime :=
  match l with
  | [] => Ok (mkDeltaTime 0 0 0 0)
  | [a] => Ok (mkDeltaTime a 0 0 0)
  | [a; b] => Ok (mkDeltaTime a b 0 0)
  | [a; b; c] => Ok (mkDeltaTime a b c 0)
  | [a; b; c; d] => Ok (mkDeltaTime a b c d)
  | _ => Exc TypeError
  end.

Definition coerce_offset (a : offset_arg) : result DeltaTime :=
  match a with
  | OffDelta o => Ok o
  | OffSeq l => DeltaTime_of_seq l
  end.

(** [obj.strftime(time_format)]: only a [datetime] has the method. *)
Definition py_strftime (v : pyval) : result string :=
  match v with
  | PDatetime d => Ok (strftime d)
  | _ => Exc AttributeError
  end.

Definition construct_query_time_endpoints (query_time : pyval)
    (delta_time_start delta_time_end : offset_arg) (tz_offset : Z)
    : result (string * string) :=
  let* s := coerce_offset delta_time_start in
  let* e := coerce_offset delta_time_end in
  let* q := match query_time with
            | PStr str => let* d := strptime_r str in Ok (PDatetime d)
            | v => Ok v
            end in
  let* tz := timedelta_dhms 0 tz_offset 0 0 in
  let* a := py_add q (PDelta s) in
  let* a := py_sub a (PTimedelta tz) in
  let* start_time_utc := py_strftime a in
  let* b := py_add q (PDelta e) in
  let* b := py_sub b (PTimedelta tz) in
  let* end_time_utc := py_strftime b in
  Ok (start_time_utc, end_time_utc).

(** The window as the specification words it:
    [format(reference_time + start_offset - tz_duration)] and
    [format(reference_time + end_offset - tz_duration)]. *)
Definition endpoints_formula (q : datetime) (s e : DeltaTime) (tz_hours : Z)
    : result (string * string) :=
  let* tz := timedelta_dhms 0 tz_hours 0 0 in
  let* ts := to_timedelta s in
  let* a := dt_add q ts in
  let* a := dt_sub a tz in
  let* te := to_timedelta e in
  let* b := dt_add q te in
  let* b := dt_sub b tz in
  Ok (strftime a, strftime b).

Example endpoints_ex0 :
  construct_query_time_endpoints (PStr "2024-05-16T10:00:00Z")
    (OffSeq [0; -2; 0; 0]) (OffSeq [0; 1; 0; 0]) 0
  = Ok ("2024-05-16T08:00:00Z", "2024-05-16T11:00:00Z")%string.
Proof. vm_compute. reflexivity. Qed.

Example endpoints_ex8 :
  construct_query_time_endpoints (PStr "2024-05-16T10:00:00Z")
    (OffSeq [0; -2; 0; 0]) (OffSeq [0; 1; 0; 0]) (-8)
  = Ok ("2024-05-16T16:00:00Z", "2024-05-16T19:00:00Z")%string.
Proof. vm_compute. reflexivity. Qed.

(** ** [timezone_offset] *)

Definition DST_start : datetime := mkdt 2024 3 10 2 0 0 0.
Definition DST_end : datetime := mkdt 2024 11 3 1 0 0 0.

(** [td.total_seconds() > 0]: [total_seconds] divides the microseconds by
    [10**6]; the quotient is positive exactly when the microseconds are. *)
Definition total_seconds_pos (td : Z) : bool := 0 <? td.

Definition timezone_offset (current_date : datetime) : Z :=
  if total_seconds_pos (dt_diff current_date DST_start)
     && total_seconds_pos (dt_diff DST_end current_date)
  then -7 else -8.

Example timezone_offset_ex :
  timezone_offset (mkdt 2024 5 16 0 0 0 0) = -7
  /\ timezone_offset DST_start = -8 /\ timezone_offset DST_end = -8.
Proof. vm_compute. auto. Qed.

(** ** [query_data_for_range]

    The walk is modelled by the list of dates it hands to
    [query_data_for_day], in call order.  Every (month, day) pair of the
    table is a date of 2024, a leap year, so [datetime(2024, month+1, j+1)]
    never raises. *)

Definition days_in_each_month : list Z :=
  [31; 29; 31; 30; 31; 30; 31; 31; 30; 31; 30; 31].

(** [range(n)] *)
Definition py_range (n : Z) : list Z := map Z.of_nat (seq 0 (Z.to_nat n)).

(** [enumerate(l)] *)
Definition enumerate (l : list Z) : list (Z * Z) :=
  combine (map Z.of_nat (seq 0 (List.length l))) l.

(** The inner [for j in range(days)] loop of month index [m] with [nd] days;
    returns the calls made and whether [break] was taken on the end date. *)
Fixpoint day_loop (js : list Z) (m nd : Z) (start_date end_date : datetime)
    : list datetime * bool :=
  match js with
  | [] => ([], false)
  | j :: js' =>
      if day start_date >? nd then day_loop js' m nd start_date end_date
      else if (month end_date =? m + 1) && (day end_date =? j + 1) then ([], true)
      else
        let date := mkdt 2024 (m + 1) (j + 1) 0 0 0 0 in
        let '(calls, up) := day_loop js' m nd start_date end_date in
        (date :: calls, up)
  end.

(** The outer [for (month, days) in enumerate(days_in_each_month)] loop. *)
Fixpoint month_loop (ms : list (Z * Z)) (up_to_date : bool)
    (start_date end_date : datetime) : list datetime :=
  match ms with
  | [] => []
  | (m, nd) :: ms' =>
      if month start_date >? m then month_loop ms' up_to_date start_date end_date
      else if negb up_to_date then
        let '(calls, up) := day_loop (py_range nd) m nd start_date end_date in
        calls ++ month_loop ms' up start_date end_date
      else []
  end.

Definition query_data_for_range (start_date end_date : datetime) : list datetime :=
  month_loop (enumerate days_in_each_month) false start_date end_date.

Definition date2024 (m d : Z) : datetime := mkdt 2024 m d 0 0 0 0.

Example query_data_for_range_ex :
  query_data_for_range (date2024 4 5) (date2024 6 3)
  = map (date2024 5) (map Z.of_nat (seq 1 31)) ++ [date2024 6 1; date2024 6 2].
Proof. vm_compute. reflexivity. Qed.

(** ** Data frames, [drop_columns] and [process_results]

    A frame is its row index and its named columns (column-major); a cell is
    a number or a missing value ([None] for NaN/NaT).  Column names are
    distinct. *)

Definition cell : Type := option Z.

Record dataframe : Type := mkdf {
  df_index : list cell;
  df_columns : list (string * list cell) }.

(** [df.shape[0]] and [len(df)] *)
Definition nrows (df : dataframe) : nat := List.length (df_index df).

(** [df.size] *)
Definition df_size (df : dataframe) : nat := nrows df * List.length (df_columns df).

Definition col_names (df : dataframe) : list string := map fst (df_columns df).

Definition mem (x : string) (l : list string) : bool := existsb (String.eqb x) l.

(** [df.drop(columns=labels)] with the default [errors="raise"]. *)
Definition df_drop_columns (df : dataframe) (labels : list string)
    : result dataframe :=
  if forallb (fun l => mem l (col_names df)) labels
  then Ok (mkdf (df_index df)
                (filter (fun c => negb (mem (fst c) labels)) (df_columns df)))
  else Exc KeyError.

Definition drop_columns (df : dataframe) (columns_to_drop : list string)
    : result dataframe :=
  let columns_exist := filter (fun c => mem c (col_names df)) columns_to_drop in
  df_drop_columns df columns_exist.

(** [df.set_index(key)] *)
Definition set_index (df : dataframe) (key : string) : result dataframe :=
  match find (fun c => String.eqb (fst c) key) (df_columns df) with
  | Some (_, vals) =>
      Ok (mkdf vals (filter (fun c => negb (String.eqb (fst c) key)) (df_columns df)))
  | None => Exc KeyError
  end.

Fixpoint select {A} (keep : list bool) (l : list A) : list A :=
  match keep, l with
  | k :: keep', x :: l' => if k then x :: select keep' l' else select keep' l'
  | _, _ => []
  end.

Definition row_has_value (df : dataframe) (i : nat) : bool :=
  existsb (fun c => match nth_error (snd c) i with
                    | Some (Some _) => true
                    | _ => false
                    end) (df_columns df).

(** [df.dropna(axis=0, how="all")] *)
Definition dropna_all (df : dataframe) : dataframe :=
  let keep := map (row_has_value df) (seq 0 (nrows df)) in
  mkdf (select keep (df_index df))
       (map (fun c => (fst c, select keep (snd c))) (df_columns df)).

(** Decimal text of a natural number, as [f"{n}"]. *)
Fixpoint dec_aux (fuel : nat) (n : Z) (acc : string) : string :=
  match fuel with
  | O => acc
  | S f => let acc := String (digit (n mod 10)) acc in
           if n <? 10 then acc else dec_aux f (n / 10) acc
  end.
Definition dec (n : Z) : string := dec_aux 20 n EmptyString.

Definition csv_path (current_date : datetime) : string :=
  ("/srv/data/influx/prototype-zero_realtime-data_" ++ dec (year current_date)
   ++ "-" ++ pad2 (month current_date) ++ "-" ++ pad2 (day current_date)
   ++ "_mqtt.csv")%string.

(** What a post-processing step does with a result: nothing, or a call of
    [to_csv] on the given path with the given frame (a failing write is
    caught and logged). *)
Inductive outcome : Type :=
| Skipped
| Written (path : string) (df : dataframe).

Definition process_results (df : dataframe) (current_date : datetime)
    : result outcome :=
  if Nat.eqb (df_size df) 0 then Ok Skipped
  else if Nat.ltb (nrows df) 10 then Ok Skipped
  else
    let* df := set_index df "_time" in
    let df := dropna_all df in
    Ok (Written (csv_path current_date) df).

(** [extract_date] of [src/main.py] *)
Definition extract_date (datetime_str : string) : result string :=
  let* dt := strptime_r datetime_str in
  Ok (pad4 (year dt) ++ "-" ++ pad2 (month dt) ++ "-" ++ pad2 (day dt))%string.

(** The body of the loop of [batched_data] ([src/main.py]) for one
    [query_time] and the [result] its query returned. *)
Definition data_threshold : nat := 20.

Definition batched_step (query_time : string) (result_df : dataframe)
    : result outcome :=
  if Nat.leb data_threshold (nrows result_df) then
    let* d := extract_date query_time in
    Ok (Written ("out/prototype-zero_realtime-data_" ++ d ++ ".csv")%string result_df)
  else Ok Skipped.

(** ** [generate_datetime_list] of [src/main.py]

    The [while] loop is run for at most [fuel] iterations; [None] means it
    has not finished within them. *)
Fixpoint gen_loop (fuel : nat) (current end_ : datetime) (delta : Z)
    : option (result (list string)) :=
  match fuel with
  | O => None
  | S f =>
      if dt_le current end_ then
        match dt_add current delta with
        | Ok next =>
            match gen_loop f next end_ delta with
            | Some (Ok l) => Some (Ok (strftime current :: l))
            | r => r
            end
        | Exc e => Some (Exc e)
        end
      else Some (Ok [])
  end.

Definition generate_datetime_list (fuel : nat) (start_date end_date : string)
    (delta : Z) : option (result (list string)) :=
  match strptime start_date with
  | None => Some (Exc ValueError)
  | Some start =>
      match strptime end_date with
      | None => Some (Exc ValueError)
      | Some end_ => gen_loop fuel start end_ delta
      end
  end.

Definition DAY : Z := US_PER_DAY.

Example generate_ex :
  generate_datetime_list 10 "2024-02-01T00:00:00Z" "2024-02-03T00:00:00Z" DAY
  = Some (Ok ["2024-02-01T00:00:00Z"; "2024-02-02T00:00:00Z";
               "2024-02-03T00:00:00Z"])%string.
Proof. vm_compute. reflexivity. Qed.

(** ** Association lists

    [d[k]] on a dict given as its items: the first item with key [k]. *)

Fixpoint assoc {A} (k : string) (l : list (string * A)) : option A :=
  match l with
  | [] => None
  | (k', v) :: l' => if String.eqb k k' then Some v else assoc k l'
  end.

(** ** String helpers *)

Definition dq : string := String "034"%char EmptyString.
Definition nl : string := String "010"%char EmptyString.

(** [str(n)] of a Python [int] *)
Definition int_str (n : Z) : string :=
  if n <? 0 then ("-" ++ dec (- n))%string else dec n.

Definition list_to_fstring (str_list : list string) : string :=
  let formatted_elements := map (fun s => dq ++ s ++ dq)%string str_list in
  ("[" ++ String.concat ", " formatted_elements ++ "]")%string.

(** ** [DataExtractorQueryConfig]

    A dataclass whose fields are the keyword arguments of its constructor;
    [__post_init__] replaces a [None] start or end offset by [DeltaTime()]
    and a [None] [sort_by] by [["_time", "_field"]]. *)

Record QueryConfig : Type := mkQueryConfig {
  qc_time_format : pyval;
  qc_delta_time_start : pyval;
  qc_delta_time_end : pyval;
  qc_tz_offset : pyval;
  qc_bucket : pyval;
  qc_columns_to_drop : pyval;
  qc_filter : pyval;
  qc_column_key : pyval;
  qc_aggregate_function : pyval;
  qc_aggregate_window : pyval;
  qc_sort_by : pyval }.

Definition DEFAULT_TIME_FORMAT : string := "%Y-%m-%dT%H:%M:%SZ".

Definition default_filter : string := ("r[" ++ dq ++ "_measurement" ++ dq ++ "] =~ /.*/")%string.

Definition config_fields : list string :=
  ["time_format"; "delta_time_start"; "delta_time_end"; "tz_offset"; "bucket";
   "columns_to_drop"; "filter"; "column_key"; "aggregate_function";
   "aggregate_window"; "sort_by"]%string.

Definition is_none (v : pyval) : bool := match v with PNone => true | _ => false end.

Definition post_init (c : QueryConfig) : QueryConfig :=
  mkQueryConfig (qc_time_format c)
    (if is_none (qc_delta_time_start c) then PDelta (mkDeltaTime 0 0 0 0)
     else qc_delta_time_start c)
    (if is_none (qc_delta_time_end c) then PDelta (mkDeltaTime 0 0 0 0)
     else qc_delta_time_end c)
    (qc_tz_offset c) (qc_bucket c) (qc_columns_to_drop c) (qc_filter c)
    (qc_column_key c) (qc_aggregate_function c) (qc_aggregate_window c)
    (if is_none (qc_sort_by c) then PList [PStr "_time"; PStr "_field"]
     else qc_sort_by c).

(** [DataExtractorQueryConfig( **kwargs)]: a keyword that is not a field
    raises [TypeError]; a missing one takes the field's default. *)
Definition DataExtractorQueryConfig (kwargs : list (string * pyval)) : result QueryConfig :=
  if forallb (fun kv => mem (fst kv) config_fields) kwargs then
    let arg k dflt := match assoc k kwargs with Some v => v | None => dflt end in
    Ok (post_init (mkQueryConfig
      (arg "time_format" (PStr DEFAULT_TIME_FORMAT))
      (arg "delta_time_start" PNone)
      (arg "delta_time_end" PNone)
      (arg "tz_offset" (PInt 0))
      (arg "bucket" (PStr ""))
      (arg "columns_to_drop" PNone)
      (arg "filter" (PStr default_filter))
      (arg "column_key" (PStr "id"))
      (arg "aggregate_function" (PStr "last"))
      (arg "aggregate_window" (PStr "1s"))
      (arg "sort_by" PNone)))%string
  else Exc TypeError.

Definition qc_dict (c : QueryConfig) : list (string * pyval) :=
  [("time_format", qc_time_format c); ("delta_time_start", qc_delta_time_start c);
   ("delta_time_end", qc_delta_time_end c); ("tz_offset", qc_tz_offset c);
   ("bucket", qc_bucket c); ("columns_to_drop", qc_columns_to_drop c);
   ("filter", qc_filter c); ("column_key", qc_column_key c);
   ("aggregate_function", qc_aggregate_function c);
   ("aggregate_window", qc_aggregate_window c); ("sort_by", qc_sort_by c)]%string.

Definition qc_getitem (c : QueryConfig) (key : string) : result pyval :=
  match assoc key (qc_dict c) with
  | Some v => Ok v
  | None => Exc KeyError
  end.

Definition qc_iter (c : QueryConfig) : list string := map fst (qc_dict c).

(** The parameters of [query_database], which [**query_config] fills. *)
Definition query_database_params : list string :=
  ["client"; "bucket"; "query_time"; "delta_time_start"; "delta_time_end";
   "columns_to_drop"; "filter"; "column_key"; "tz_offset"; "time_format";
   "aggregate_function"; "aggregate_window"; "sort_by"]%string.

(** ** [shift_string_time]

    [delta_time == 0] holds only for the integer 0: a [DeltaTime], like any
    other object, compares unequal to an [int].  An integer is read as hours.
    Only [DEFAULT_TIME_FORMAT] is modelled. *)
Definition shift_string_time (time_string : string) (delta_time : pyval) : result string :=
  match delta_time with
  | PNone => Ok time_string
  | PInt 0 => Ok time_string
  | _ =>
      let delta_time := match delta_time with
                        | PInt n => PDelta (mkDeltaTime 0 n 0 0)
                        | v => v
                        end in
      let* d := strptime_r time_string in
      let* r := py_add (PDatetime d) delta_time in
      py_strftime r
  end.

(** ** [query_database]

    The client is a function from the Flux query text to the frame it
    returns ([None] when there is none); only [DEFAULT_TIME_FORMAT] is
    modelled.  The local endpoints are computed for the log message, so a
    failure there is raised before the query is sent. *)
Definition flux_query (bucket start_time_utc end_time_utc : string) (tz_offset : Z)
    (filter column_key aggregate_function aggregate_window : string)
    (sort_by : list string) : string :=
  ("from(bucket: " ++ dq ++ bucket ++ dq ++ ")" ++ nl
   ++ "    |> range(start: " ++ start_time_utc ++ ", stop: " ++ end_time_utc ++ ")" ++ nl
   ++ "    |> timeShift(duration: " ++ int_str tz_offset ++ "h)" ++ nl
   ++ "    |> filter(fn: (r) => " ++ filter ++ ")" ++ nl
   ++ "    |> aggregateWindow(every: " ++ aggregate_window ++ ", fn: "
   ++ aggregate_function ++ ", createEmpty: false)" ++ nl
   ++ "    |> pivot(rowKey:[" ++ dq ++ "_time" ++ dq ++ "], columnKey: [" ++ dq
   ++ column_key ++ dq ++ "], valueColumn: " ++ dq ++ "_value" ++ dq ++ ")" ++ nl
   ++ "    |> group()" ++ nl
   ++ "    |> sort(columns: " ++ list_to_fstring sort_by ++ ")" ++ nl
   ++ "    ")%string.

Definition query_database (client : string -> option dataframe) (bucket : string)
    (query_time : pyval) (delta_time_start delta_time_end : offset_arg)
    (columns_to_drop : option (list string)) (filter column_key : string)
    (tz_offset : Z) (aggregate_function aggregate_window : string)
    (sort_by : list string) : result (option dataframe) :=
  let* (start_time_utc, end_time_utc) :=
    construct_query_time_endpoints query_time delta_time_start delta_time_end tz_offset in
  let query := flux_query bucket start_time_utc end_time_utc tz_offset filter
                 column_key aggregate_function aggregate_window sort_by in
  let* start_time_local := shift_string_time start_time_utc (PInt tz_offset) in
  let* end_time_local := shift_string_time end_time_utc (PInt tz_offset) in
  match client query with
  | None => Ok None
  | Some result =>
      match columns_to_drop with
      | None => Exc TypeError
      | Some l => let* result := drop_columns result l in Ok (Some result)
      end
  end.

(** ** [query_data_for_day]

    [process_results(None, ...)] reads [None.size] and raises
    [AttributeError]. *)
Definition drop_list : list string :=
  ["result"; "table"; "_start"; "_stop"; "_measurement"; "datatype"; "_field";
   "_measurement"; "category"; "level"; "machine"; "module"; "display_name"]%string.

Definition day_filter : string := ("r[" ++ dq ++ "id" ++ dq ++ "] =~ /.*/")%string.

Definition query_data_for_day (client : string -> option dataframe) (current_date : datetime)
    : result outcome :=
  let query_time := strftime current_date in
  let tz_offset := timezone_offset current_date in
  let* result := query_database client "prototype-zero" (PStr query_time)
                   (OffSeq [0; 0; 0; 0]) (OffSeq [0; 24; 0; 0]) (Some drop_list)
                   day_filter "id" tz_offset "last" "1s" ["_time"]%string in
  match result with
  | None => Exc AttributeError
  | Some df => process_results df current_date
  end.

(** What [strptime] gives back from [strftime d]: [d] without its
    microseconds. *)
Definition trunc_us (d : datetime) : datetime :=
  mkdt (year d) (month d) (day d) (hour d) (minute d) (second d) 0.

(** ** Frames and sample inputs *)

(** Every column has one cell per row. *)
Definition df_wf (df : dataframe) : Prop :=
  forall c, In c (df_columns df) -> List.length (snd c) = nrows df.

(** A day, and a 12-row frame as the client may return it: a [_time]
    column, a sensor column missing on odd rows, and a [table] column. *)
Definition sample_day : datetime := mkdt 2024 5 16 0 0 0 0.

Definition sample_frame : dataframe :=
  mkdf (map (fun i => Some (Z.of_nat i)) (seq 0 12))
    [("_time", map (fun i => Some (1715842800 + Z.of_nat i)) (seq 0 12));
     ("id1", map (fun i => if Nat.even i then Some (Z.of_nat i) else None) (seq 0 12));
     ("table", map (fun _ => Some 0) (seq 0 12))]%string.

(** ** Readings of the specification's words *)

(** What a reference-time argument denotes: a [datetime], or a string that
    parses to one. *)
Definition ref_denotes (r : pyval) (q : datetime) : Prop :=
  r = PDatetime q \/ exists s, r = PStr s /\ strptime s = Some q.

(** What an offset argument denotes: a [DeltaTime], or its four fields as a
    tuple or list. *)
Definition offset_denotes (a : offset_arg) (o : DeltaTime) : Prop :=
  a = OffDelta o \/ a = OffSeq [days o; hours o; minutes o; seconds o].

(** The operand kinds [DeltaTime.__add__] and [DeltaTime.__sub__] have no
    branch for. *)
Definition unsupported (v : pyval) : Prop :=
  match v with
  | PInt _ | PList _ | PNone => True
  | _ => False
  end.

(** The days [query_data_for_range] visits from month [m] (1-based) to
    December, from day 1 of each month. *)
Definition whole_months_from (m : nat) : list datetime :=
  flat_map (fun k => map (date2024 (Z.of_nat k))
                         (map Z.of_nat (seq 1 (Z.to_nat (nth (k - 1) days_in_each_month 0)))))
           (seq m (13 - m)).

(** Field ranges of a calendar date. *)
Definition valid_date (y m d : Z) : bool :=
  (1 <=? m) && (m <=? 12) && (1 <=? d) && (d <=? Cal.days_in_month y m).

(** What [_ord2ymd] must satisfy at day [r] of the first 400-year cycle. *)
Definition cycle_ok (r : Z) : bool :=
  let '(y, m, d) := Cal.ord2ymd_in_cycle r in
  (Cal.ymd2ord y m d =? r + 1) && valid_date y m d && (1 <=? y) && (y <=? 400)
  && ((145730 <? r) || (y <=? 399)).

(** Length of year [r] of the cycle, as [days_before_year] counts it. *)
Definition year_step_ok (r : Z) : bool :=
  Cal.days_before_year (r + 1)
  =? Cal.days_before_year r + 365 + (if Cal.is_leap r then 1 else 0).

(** [f r0 && f (r0+1) && ... && f (r0+n-1)] *)
Fixpoint check_from (f : Z -> bool) (fuel : nat) (r : Z) : bool :=
  match fuel with
  | O => true
  | S k => f r && check_from f k (r + 1)
  end.

(** [[lo; lo+1; ...; lo+n-1]] *)
Definition zseq (lo : Z) (n : nat) : list Z := map (fun k => lo + Z.of_nat k) (seq 0 n).

(** Microseconds since midnight. *)
Definition tsec (d : datetime) : Z :=
  ((hour d * 60 + minute d) * 60 + second d) * 1000000 + microsecond d.

(** [generate_datetime_list] as the specification words it: the instants
    [start], [start + delta], ... that are at most [end_], formatted, in
    order; the loop also takes one step past the last of them, which raises
    [OverflowError] when it leaves [datetime]'s range. *)
Definition in_range (x : Z) : bool :=
  (0 <? x / US_PER_DAY) && (x / US_PER_DAY <=? Cal.MAXORDINAL).

Definition gen_count (c e delta : Z) : nat :=
  if e <? c then O else Z.to_nat ((e - c) / delta + 1).

Definition generate_spec (start end_ : datetime) (delta : Z) : result (list string) :=
  let c := dt_to_us start in
  match gen_count c (dt_to_us end_) delta with
  | O => Ok []
  | n =>
      if in_range (c + Z.of_nat n * delta)
      then Ok (map (fun k => strftime (dt_of_us (c + Z.of_nat k * delta))) (seq 0 n))
      else Exc OverflowError
  end.

(** * Proofs *)

(** ** Endpoints follow the formula *)

Lemma coerce_offset_denotes a o :
  offset_denotes a o -> coerce_offset a = Ok o.
Proof.
  intros [-> | ->]; [reflexivity|]. destruct o; reflexivity.
Qed.

Lemma query_time_denotes r q :
  ref_denotes r q ->
  (match r with
   | PStr str => let* d := strptime_r str in Ok (PDatetime d)
   | v => Ok v
   end) = Ok (PDatetime q).
Proof.
  intros [-> | (s & -> & Hs)]; [reflexivity|].
  unfold strptime_r. rewrite Hs. reflexivity.
Qed.

Lemma endpoints_formula_eq r q a b s e tz :
  ref_denotes r q -> offset_denotes a s -> offset_denotes b e ->
  construct_query_time_endpoints r a b tz = endpoints_formula q s e tz.
Proof.
  intros Hr Ha Hb. unfold construct_query_time_endpoints, endpoints_formula.
  rewrite (coerce_offset_denotes _ _ Ha), (coerce_offset_denotes _ _ Hb).
  cbn [bind]. rewrite (query_time_denotes _ _ Hr). cbn [bind].
  destruct (timedelta_dhms 0 tz 0 0) as [tzd|err]; cbn [bind]; [|reflexivity].
  cbn [py_add DeltaTime_radd DeltaTime_add].
  destruct (to_timedelta s) as [ts|err]; cbn [bind]; [|reflexivity].
  destruct (dt_add q ts) as [x|err]; cbn [bind]; [|reflexivity].
  cbn [py_sub].
  destruct (dt_sub x tzd) as [x'|err]; cbn [bind py_strftime]; [|reflexivity].
  destruct (to_timedelta e) as [te|err]; cbn [bind]; [|reflexivity].
  destruct (dt_add q te) as [y|err]; cbn [bind]; [|reflexivity].
  cbn [py_sub].
  destruct (dt_sub y tzd) as [y'|err]; cbn [bind py_strftime]; reflexivity.
Qed.

(** ** Offset arithmetic *)

(** C7: for every operand that is neither a [timedelta], a string, a
    [datetime] nor a [DeltaTime] (an int, a list, [None]), adding or
    subtracting it with a [DeltaTime], on either side, raises [TypeError]. *)
Lemma DeltaTime_unsupported_TypeError (o : DeltaTime) (v : pyval) :
  unsupported v ->
  py_add (PDelta o) v = Exc TypeError /\ py_add v (PDelta o) = Exc TypeError
  /\ py_sub (PDelta o) v = Exc TypeError /\ py_sub v (PDelta o) = Exc TypeError.
Proof.
  destruct v; cbn [unsupported]; intros H; try contradiction;
    repeat split; reflexivity.
Qed.

Lemma DeltaTime_unsupported_TypeError_witness :
  unsupported (PInt 5)
  /\ py_add (PDelta (mkDeltaTime 0 1 0 0)) (PInt 5) = Exc TypeError
  /\ py_add (PInt 5) (PDelta (mkDeltaTime 0 1 0 0)) = Exc TypeError
  /\ py_sub (PDelta (mkDeltaTime 0 1 0 0)) (PInt 5) = Exc TypeError
  /\ py_sub (PInt 5) (PDelta (mkDeltaTime 0 1 0 0)) = Exc TypeError.
Proof.
  split; [exact I|]. apply DeltaTime_unsupported_TypeError. exact I.
Defined.

(** C3 (code bug): subtraction does not mirror addition.
    [timedelta(hours=1) - DeltaTime(hours=3)] gives +2 hours, because
    [__rsub__] computes offset minus value; a string on either side of [-]
    raises [TypeError], while [DeltaTime + string] gives a [datetime];
    [datetime - DeltaTime] does give the earlier instant. *)
Lemma DeltaTime_sub_mismatch :
  py_sub (PTimedelta HOUR) (PDelta (mkDeltaTime 0 3 0 0)) = Ok (PTimedelta (2 * HOUR))
  /\ py_sub (PStr "2024-05-16T10:00:00Z") (PDelta (mkDeltaTime 0 1 0 0)) = Exc TypeError
  /\ py_sub (PDelta (mkDeltaTime 0 1 0 0)) (PStr "2024-05-16T10:00:00Z") = Exc TypeError
  /\ py_add (PDelta (mkDeltaTime 0 1 0 0)) (PStr "2024-05-16T10:00:00Z")
     = Ok (PDatetime (mkdt 2024 5 16 11 0 0 0))
  /\ py_sub (PDatetime (mkdt 2024 5 16 10 0 0 0)) (PDelta (mkDeltaTime 0 1 0 0))
     = Ok (PDatetime (mkdt 2024 5 16 9 0 0 0)).
Proof. vm_compute. repeat split; reflexivity. Qed.

(** ** [drop_columns] *)

Lemma mem_filter_present x (p : string -> bool) l :
  p x = true -> mem x (filter p l) = mem x l.
Proof.
  intros Hp. induction l as [|a l IH]; [reflexivity|].
  cbn [filter]. destruct (p a) eqn:Ha.
  - cbn [mem existsb]. unfold mem in IH. rewrite IH. reflexivity.
  - unfold mem in *. cbn [existsb]. rewrite IH.
    destruct (String.eqb_spec x a) as [->|]; [congruence|reflexivity].
Qed.

(** C8: [drop_columns] never fails: it keeps exactly the columns whose name
    is not in the list, so absent names change nothing and every present
    listed column is removed; the index is unchanged. *)
Lemma drop_columns_filters (df : dataframe) (columns_to_drop : list string) :
  drop_columns df columns_to_drop
  = Ok (mkdf (df_index df)
             (filter (fun c => negb (mem (fst c) columns_to_drop)) (df_columns df))).
Proof.
  unfold drop_columns, df_drop_columns.
  replace (forallb _ _) with true.
  2:{ symmetry. apply forallb_forall. intros x Hx.
      apply filter_In in Hx. tauto. }
  f_equal. f_equal. apply filter_ext_in. intros c Hc.
  rewrite mem_filter_present; [reflexivity|].
  unfold mem, col_names. apply existsb_exists. exists (fst c).
  split; [apply in_map; exact Hc | apply String.eqb_refl].
Qed.

(** ** [query_data_for_range] *)

Lemma day_loop_year js m nd s e d :
  In d (fst (day_loop js m nd s e)) -> year d = 2024.
Proof.
  induction js as [|j js IH]; cbn [day_loop fst]; [contradiction|].
  destruct (day s >? nd); [exact IH|].
  destruct ((month e =? m + 1) && (day e =? j + 1)); [cbn; contradiction|].
  destruct (day_loop js m nd s e) as [calls up]. cbn [fst] in *.
  intros [<- | H]; [reflexivity | exact (IH H)].
Qed.

Lemma month_loop_year ms up s e d :
  In d (month_loop ms up s e) -> year d = 2024.
Proof.
  revert up. induction ms as [|[m nd] ms IH]; intros up; cbn [month_loop];
    [contradiction|].
  destruct (month s >? m); [apply IH|].
  destruct (negb up); [|contradiction].
  destruct (day_loop (py_range nd) m nd s e) as [calls up'] eqn:Hd.
  intros H. apply in_app_or in H as [H|H].
  - apply (day_loop_year (py_range nd) m nd s e). rewrite Hd. exact H.
  - exact (IH up' H).
Qed.

(** C10: every date [query_data_for_range] hands to [query_data_for_day]
    lies in 2024, whatever the years of [start_date] and [end_date]. *)
Lemma query_data_for_range_year_2024 (start_date end_date d : datetime) :
  In d (query_data_for_range start_date end_date) -> year d = 2024.
Proof. apply month_loop_year. Qed.

Lemma query_data_for_range_year_2024_witness :
  In (date2024 5 1) (query_data_for_range (mkdt 2031 4 5 0 0 0 0) (mkdt 1999 6 3 0 0 0 0))
  /\ year (date2024 5 1) = 2024.
Proof.
  assert (H : In (date2024 5 1)
                (query_data_for_range (mkdt 2031 4 5 0 0 0 0) (mkdt 1999 6 3 0 0 0 0)))
    by (vm_compute; left; reflexivity).
  split; [exact H | exact (query_data_for_range_year_2024 _ _ _ H)].
Defined.

(** C2 (code bug): for 2024-03-05 to 2024-03-10 the walk skips March,
    visits every day from 2024-04-01 to 2024-12-31 (275 calls) and never
    reaches the end date; for 2024-01-31 to 2024-03-10 it skips February and
    visits only 2024-03-01 to 2024-03-09. *)
Lemma query_data_for_range_slips :
  query_data_for_range (date2024 3 5) (date2024 3 10) = whole_months_from 4
  /\ List.length (whole_months_from 4) = 275%nat
  /\ query_data_for_range (date2024 1 31) (date2024 3 10)
     = map (date2024 3) (map Z.of_nat (seq 1 9)).
Proof. vm_compute. repeat split; reflexivity. Qed.

(** ** [process_results] and the loop of [batched_data] *)

(** C5 (counterexample): a result with 10 rows and no columns reaches the
    threshold but is not written, since [process_results] first discards
    frames with [df.size == 0]. *)
Lemma process_results_zero_columns_skipped :
  ~ (exists p df', process_results (mkdf (repeat (Some 0) 10) []) (date2024 5 16)
                   = Ok (Written p df')).
Proof. intros (p & df' & H). vm_compute in H. discriminate. Qed.

Lemma set_index_present df key :
  In key (col_names df) -> exists df', set_index df key = Ok df'.
Proof.
  intros Hin. unfold set_index.
  destruct (find (fun c => String.eqb (fst c) key) (df_columns df)) as [[k v]|] eqn:Hf.
  - eexists. reflexivity.
  - exfalso. unfold col_names in Hin. apply in_map_iff in Hin as ([k v] & Hk & Hc).
    cbn in Hk. subst k. pose proof (find_none _ _ Hf _ Hc) as H.
    cbn in H. rewrite String.eqb_refl in H. discriminate.
Qed.

(** C5 (as the code behaves): [process_results] skips a result with fewer
    than 10 rows or no cells, and writes one with at least 10 rows, a column
    and a [_time] column, as the frame indexed by [_time] with its all-empty
    rows dropped; the loop of [batched_data] skips fewer than 20 rows and
    writes 20 or more, as they are, to the file named after the date. *)
Lemma process_results_gate (df : dataframe) (current_date : datetime) (query_time : string) :
  ((nrows df < 10)%nat -> process_results df current_date = Ok Skipped)
  /\ (df_size df = 0%nat -> process_results df current_date = Ok Skipped)
  /\ ((10 <= nrows df)%nat -> df_columns df <> [] -> In "_time"%string (col_names df) ->
      exists indexed, set_index df "_time" = Ok indexed
        /\ process_results df current_date
           = Ok (Written (csv_path current_date) (dropna_all indexed)))
  /\ ((nrows df < 20)%nat -> batched_step query_time df = Ok Skipped)
  /\ ((20 <= nrows df)%nat -> strptime query_time <> None ->
      exists date, extract_date query_time = Ok date
        /\ batched_step query_time df
           = Ok (Written ("out/prototype-zero_realtime-data_" ++ date ++ ".csv")%string df)).
Proof.
  unfold process_results, batched_step, data_threshold.
  repeat split.
  - intros H. destruct (Nat.eqb (df_size df) 0); [reflexivity|].
    apply Nat.ltb_lt in H. rewrite H. reflexivity.
  - intros H. rewrite H. reflexivity.
  - intros Hn Hc Ht.
    assert (Hs : Nat.eqb (df_size df) 0 = false).
    { apply Nat.eqb_neq. unfold df_size. destruct (df_columns df); [congruence|].
      cbn [List.length]. lia. }
    rewrite Hs. replace (Nat.ltb (nrows df) 10) with false
      by (symmetry; apply Nat.ltb_ge; exact Hn).
    destruct (set_index_present df "_time" Ht) as [df' ->].
    exists df'. split; reflexivity.
  - intros H. replace (Nat.leb 20 (nrows df)) with false
      by (symmetry; apply Nat.leb_gt; exact H). reflexivity.
  - intros H Hq. replace (Nat.leb 20 (nrows df)) with true
      by (symmetry; apply Nat.leb_le; exact H).
    destruct (extract_date query_time) as [date|e] eqn:Ed.
    + exists date. split; reflexivity.
    + exfalso. unfold extract_date, strptime_r in Ed.
      destruct (strptime query_time); [discriminate | congruence].
Qed.

Lemma process_results_gate_witness :
  process_results (mkdf (repeat (Some 0%Z) 9) [("_time"%string, repeat (Some 0%Z) 9)])
       (date2024 5 16) = Ok Skipped
  /\ exists indexed,
       set_index (mkdf (repeat (Some 0%Z) 10) [("_time"%string, repeat (Some 1%Z) 10);
                                               ("id1"%string, repeat None 10)]) "_time"
       = Ok indexed
       /\ process_results (mkdf (repeat (Some 0%Z) 10) [("_time"%string, repeat (Some 1%Z) 10);
                                                        ("id1"%string, repeat None 10)])
            (date2024 5 16)
          = Ok (Written (csv_path (date2024 5 16)) (dropna_all indexed)).
Proof.
  split.
  - apply (proj1 (process_results_gate _ (date2024 5 16) "2024-05-16T00:00:00Z"%string)).
    apply Nat.ltb_lt. reflexivity.
  - apply (proj1 (proj2 (proj2 (process_results_gate
             (mkdf (repeat (Some 0%Z) 10) [("_time"%string, repeat (Some 1%Z) 10);
                                          ("id1"%string, repeat None 10)])
             (date2024 5 16) "2024-05-16T00:00:00Z"%string)))).
    + apply Nat.leb_le. reflexivity.
    + discriminate.
    + left. reflexivity.
Defined.

(** ** [construct_query_time_endpoints] *)

(** C1 (as the code behaves): for every reference time, offsets and
    [tz_offset], [construct_query_time_endpoints] returns
    [(format(q + start - tz), format(q + end - tz))]; for 10:00 with offsets
    -2h and +1h this is (08:00, 11:00) at offset 0 and (16:00, 19:00) at
    offset -8. *)
Lemma construct_query_time_endpoints_spec (r : pyval) (q : datetime)
    (a b : offset_arg) (s e : DeltaTime) (tz : Z) :
  ref_denotes r q -> offset_denotes a s -> offset_denotes b e ->
  construct_query_time_endpoints r a b tz = endpoints_formula q s e tz
  /\ construct_query_time_endpoints (PStr "2024-05-16T10:00:00Z")
       (OffSeq [0; -2; 0; 0]) (OffSeq [0; 1; 0; 0]) 0
     = Ok ("2024-05-16T08:00:00Z", "2024-05-16T11:00:00Z")%string
  /\ construct_query_time_endpoints (PStr "2024-05-16T10:00:00Z")
       (OffSeq [0; -2; 0; 0]) (OffSeq [0; 1; 0; 0]) (-8)
     = Ok ("2024-05-16T16:00:00Z", "2024-05-16T19:00:00Z")%string.
Proof.
  intros Hr Ha Hb. split; [exact (endpoints_formula_eq _ _ _ _ _ _ _ Hr Ha Hb)|].
  vm_compute. split; reflexivity.
Qed.

Lemma construct_query_time_endpoints_spec_witness :
  ref_denotes (PStr "2024-05-16T10:00:00Z") (mkdt 2024 5 16 10 0 0 0)
  /\ construct_query_time_endpoints (PStr "2024-05-16T10:00:00Z")
       (OffSeq [0; -2; 0; 0]) (OffSeq [0; 1; 0; 0]) (-8)
     = endpoints_formula (mkdt 2024 5 16 10 0 0 0)
         (mkDeltaTime 0 (-2) 0 0) (mkDeltaTime 0 1 0 0) (-8).
Proof.
  assert (Hr : ref_denotes (PStr "2024-05-16T10:00:00Z") (mkdt 2024 5 16 10 0 0 0))
    by (right; exists "2024-05-16T10:00:00Z"%string; split; [reflexivity|vm_compute; reflexivity]).
  split; [exact Hr|].
  exact (proj1 (construct_query_time_endpoints_spec _ _
    (OffSeq [0; -2; 0; 0]) (OffSeq [0; 1; 0; 0])
    (mkDeltaTime 0 (-2) 0 0) (mkDeltaTime 0 1 0 0) (-8) Hr
    (or_intror eq_refl) (or_intror eq_refl))).
Defined.

(** C1 (counterexample): at [tz_offset = -8] the endpoints for 10:00 with
    offsets -2h and +1h are not (00:00, 03:00). *)
Lemma construct_query_time_endpoints_tz_minus_8 :
  construct_query_time_endpoints (PStr "2024-05-16T10:00:00Z")
    (OffSeq [0; -2; 0; 0]) (OffSeq [0; 1; 0; 0]) (-8)
  <> Ok ("2024-05-16T00:00:00Z", "2024-05-16T03:00:00Z")%string.
Proof. vm_compute. discriminate. Qed.

(** ** The calendar of [datetime] *)

Module CalFacts.

Lemma check_from_spec f n r0 :
  check_from f n r0 = true -> forall r, r0 <= r < r0 + Z.of_nat n -> f r = true.
Proof.
  revert r0. induction n as [|n IH]; intros r0 H r Hr; [lia|].
  cbn [check_from] in H. apply andb_prop in H as [H1 H2].
  destruct (Z.eq_dec r r0) as [->|Hne]; [exact H1|].
  apply (IH (r0 + 1) H2). lia.
Qed.

Lemma in_zseq lo n v : lo <= v < lo + Z.of_nat n -> In v (zseq lo n).
Proof.
  intros H. unfold zseq. apply in_map_iff. exists (Z.to_nat (v - lo)).
  split; [lia|]. apply in_seq. lia.
Qed.

Lemma cycle_all : check_from cycle_ok (Z.to_nat Cal.DI400Y) 0 = true.
Proof. vm_compute. reflexivity. Qed.

Lemma year_step_all : check_from year_step_ok 400 0 = true.
Proof. vm_compute. reflexivity. Qed.

Lemma div_shift a b c : c <> 0 -> (a + b * c) / c = a / c + b.
Proof. intros. apply Z.div_add. exact H. Qed.

Lemma days_before_year_shift y q :
  Cal.days_before_year (y + 400 * q) = Cal.days_before_year y + Cal.DI400Y * q.
Proof.
  unfold Cal.days_before_year, Cal.DI400Y.
  replace (y + 400 * q - 1) with ((y - 1) + (100 * q) * 4) at 2 by lia.
  rewrite div_shift by lia.
  replace (y + 400 * q - 1) with ((y - 1) + (4 * q) * 100) at 2 by lia.
  rewrite div_shift by lia.
  replace (y + 400 * q - 1) with ((y - 1) + q * 400) at 2 by lia.
  rewrite div_shift by lia.
  lia.
Qed.

Lemma is_leap_shift y q : Cal.is_leap (y + 400 * q) = Cal.is_leap y.
Proof.
  unfold Cal.is_leap.
  replace (y + 400 * q) with (y + (100 * q) * 4) by lia. rewrite Z.mod_add by lia.
  replace (y + 100 * q * 4) with (y + (4 * q) * 100) by lia. rewrite Z.mod_add by lia.
  replace (y + 4 * q * 100) with (y + q * 400) by lia. rewrite Z.mod_add by lia.
  reflexivity.
Qed.

Lemma ymd2ord_shift y m d q :
  Cal.ymd2ord (y + 400 * q) m d = Cal.ymd2ord y m d + Cal.DI400Y * q.
Proof.
  unfold Cal.ymd2ord, Cal.days_before_month.
  rewrite days_before_year_shift, is_leap_shift. lia.
Qed.

Lemma valid_date_shift y m d q :
  valid_date (y + 400 * q) m d = valid_date y m d.
Proof.
  unfold valid_date, Cal.days_in_month. rewrite is_leap_shift. reflexivity.
Qed.

(** Every ordinal of [datetime]'s range names a valid date of years
    1..9999, and [_ymd2ord] inverts [_ord2ymd]. *)
Lemma ord2ymd_spec n :
  1 <= n <= Cal.MAXORDINAL ->
  let '(y, m, d) := Cal.ord2ymd n in
  Cal.ymd2ord y m d = n /\ valid_date y m d = true /\ 1 <= y <= 9999.
Proof.
  intros Hn. unfold Cal.ord2ymd.
  pose proof (Z.div_mod (n - 1) Cal.DI400Y ltac:(unfold Cal.DI400Y; lia)) as Hdm.
  pose proof (Z.mod_pos_bound (n - 1) Cal.DI400Y ltac:(unfold Cal.DI400Y; lia)) as Hb.
  set (q := (n - 1) / Cal.DI400Y) in *. set (r := (n - 1) mod Cal.DI400Y) in *.
  pose proof (check_from_spec _ _ _ cycle_all r ltac:(unfold Cal.DI400Y in *; lia)) as Hc.
  unfold cycle_ok in Hc.
  destruct (Cal.ord2ymd_in_cycle r) as [[y m] d].
  repeat rewrite Bool.andb_true_iff in Hc.
  destruct Hc as [[[[H1 H2] H3] H4] H5].
  apply Z.eqb_eq in H1. apply Z.leb_le in H3. apply Z.leb_le in H4.
  unfold Cal.MAXORDINAL, Cal.DI400Y in *.
  replace (q * 400 + y) with (y + 400 * q) by lia.
  rewrite ymd2ord_shift, valid_date_shift. unfold Cal.DI400Y.
  split; [lia|]. split; [exact H2|].
  apply Bool.orb_true_iff in H5 as [H5|H5].
  - apply Z.ltb_lt in H5. lia.
  - apply Z.leb_le in H5. lia.
Qed.

Lemma days_before_year_step y :
  Cal.days_before_year (y + 1)
  = Cal.days_before_year y + 365 + (if Cal.is_leap y then 1 else 0).
Proof.
  pose proof (Z.div_mod y 400 ltac:(lia)) as Hdm.
  pose proof (Z.mod_pos_bound y 400 ltac:(lia)) as Hb.
  set (q := y / 400) in *. set (r := y mod 400) in *.
  pose proof (check_from_spec _ _ _ year_step_all r ltac:(lia)) as H.
  unfold year_step_ok in H. apply Z.eqb_eq in H.
  clearbody q r. subst y.
  replace (400 * q + r + 1) with ((r + 1) + 400 * q) by lia.
  replace (400 * q + r) with (r + 400 * q) by lia.
  rewrite !days_before_year_shift, is_leap_shift. lia.
Qed.

Lemma days_before_year_mono y k :
  Cal.days_before_year y + 365 * Z.of_nat k <= Cal.days_before_year (y + Z.of_nat k).
Proof.
  induction k as [|k IH].
  { change (Z.of_nat 0) with 0. rewrite Z.mul_0_r, !Z.add_0_r. lia. }
  rewrite Nat2Z.inj_succ. replace (y + Z.succ (Z.of_nat k)) with ((y + Z.of_nat k) + 1) by lia.
  rewrite days_before_year_step. destruct (Cal.is_leap (y + Z.of_nat k)); lia.
Qed.

End CalFacts.

(** ** Ordinals follow the calendar order *)

Module CalOrder.
Import CalFacts.

Ltac zbool :=
  repeat match goal with
  | |- context [?a <? ?b] => destruct (Z.ltb_spec a b)
  | |- context [?a =? ?b] => destruct (Z.eqb_spec a b)
  | |- context [?a <=? ?b] => destruct (Z.leb_spec a b)
  end; cbn [andb orb negb]; first [reflexivity | exfalso; lia].

Ltac month_cases m :=
  let H := fresh "Hin" in
  assert (H : In m (zseq 1 12)) by (apply in_zseq; lia);
  vm_compute in H; repeat destruct H as [<- | H]; try contradiction.

Lemma month_bounds y m :
  1 <= m <= 12 ->
  0 <= Cal.days_before_month y m
  /\ Cal.days_before_month y m + Cal.days_in_month y m
     <= 365 + (if Cal.is_leap y then 1 else 0).
Proof.
  intros H. month_cases m;
    unfold Cal.days_before_month, Cal.days_in_month;
    destruct (Cal.is_leap y); split; apply Z.leb_le; vm_compute; reflexivity.
Qed.

Lemma month_mono y m m' :
  1 <= m -> m < m' -> m' <= 12 ->
  Cal.days_before_month y m + Cal.days_in_month y m <= Cal.days_before_month y m'.
Proof.
  intros H1 H2 H3.
  assert (Hm : 1 <= m <= 12) by lia. assert (Hm' : 1 <= m' <= 12) by lia.
  clear H1 H3. month_cases m; month_cases m'; try lia;
    unfold Cal.days_before_month, Cal.days_in_month;
    destruct (Cal.is_leap y); apply Z.leb_le; vm_compute; reflexivity.
Qed.

Lemma valid_date_props y m d :
  valid_date y m d = true -> 1 <= m <= 12 /\ 1 <= d <= Cal.days_in_month y m.
Proof.
  unfold valid_date. intros H. repeat rewrite Bool.andb_true_iff in H.
  rewrite !Z.leb_le in H. lia.
Qed.

Lemma ymd2ord_lt y m d y' m' d' :
  valid_date y m d = true -> valid_date y' m' d' = true ->
  (y < y' \/ (y = y' /\ (m < m' \/ (m = m' /\ d < d')))) ->
  Cal.ymd2ord y m d < Cal.ymd2ord y' m' d'.
Proof.
  intros V V' H.
  apply valid_date_props in V as [Vm Vd]. apply valid_date_props in V' as [Vm' Vd'].
  unfold Cal.ymd2ord.
  destruct H as [Hy | [-> [Hm | [-> Hd]]]].
  - destruct (month_bounds y m Vm) as [_ Hb]. destruct (month_bounds y' m' Vm') as [Hb' _].
    pose proof (days_before_year_step y) as Hs.
    pose proof (days_before_year_mono (y + 1) (Z.to_nat (y' - y - 1))) as Hmono.
    replace (y + 1 + Z.of_nat (Z.to_nat (y' - y - 1))) with y' in Hmono by lia.
    destruct (Cal.is_leap y); lia.
  - pose proof (month_mono y' m m' ltac:(lia) Hm ltac:(lia)). lia.
  - lia.
Qed.

Lemma ymd2ord_cmp y m d y' m' d' :
  valid_date y m d = true -> valid_date y' m' d' = true ->
  (Cal.ymd2ord y m d <? Cal.ymd2ord y' m' d')
  = ((y <? y') || ((y =? y') && ((m <? m') || ((m =? m') && (d <? d')))))
  /\ (Cal.ymd2ord y m d =? Cal.ymd2ord y' m' d')
  = ((y =? y') && ((m =? m') && (d =? d'))).
Proof.
  intros V V'.
  destruct (Z.lt_trichotomy y y') as [Hy | [Hy | Hy]].
  { pose proof (ymd2ord_lt _ _ _ _ _ _ V V' (or_introl Hy)). split; zbool. }
  2:{ pose proof (ymd2ord_lt _ _ _ _ _ _ V' V (or_introl Hy)). split; zbool. }
  subst y'.
  destruct (Z.lt_trichotomy m m') as [Hm | [Hm | Hm]].
  { pose proof (ymd2ord_lt _ _ _ _ _ _ V V' (or_intror (conj eq_refl (or_introl Hm)))).
    split; zbool. }
  2:{ pose proof (ymd2ord_lt _ _ _ _ _ _ V' V (or_intror (conj eq_refl (or_introl Hm)))).
      split; zbool. }
  subst m'.
  destruct (Z.lt_trichotomy d d') as [Hd | [Hd | Hd]].
  { pose proof (ymd2ord_lt _ _ _ _ _ _ V V'
                  (or_intror (conj eq_refl (or_intror (conj eq_refl Hd))))).
    split; zbool. }
  2:{ pose proof (ymd2ord_lt _ _ _ _ _ _ V' V
                    (or_intror (conj eq_refl (or_intror (conj eq_refl Hd))))).
      split; zbool. }
  subst d'. split; zbool.
Qed.

End CalOrder.

(** ** Naive [datetime] comparison is the order of instants *)

Module DtOrder.
Import CalFacts CalOrder.

Lemma valid_dtb_props d :
  valid_dtb d = true ->
  valid_date (year d) (month d) (day d) = true /\ 1 <= year d <= 9999
  /\ 0 <= hour d < 24 /\ 0 <= minute d < 60 /\ 0 <= second d < 60
  /\ 0 <= microsecond d < 1000000.
Proof.
  unfold valid_dtb, valid_date. intros H. repeat rewrite Bool.andb_true_iff in H.
  rewrite ?Z.leb_le, ?Z.ltb_lt in H.
  repeat rewrite Bool.andb_true_iff. rewrite ?Z.leb_le. lia.
Qed.

Lemma tsec_bounds d : valid_dtb d = true -> 0 <= tsec d < US_PER_DAY.
Proof.
  intros H. apply valid_dtb_props in H. unfold tsec, US_PER_DAY. lia.
Qed.

Lemma dt_to_us_split d : dt_to_us d = toordinal d * US_PER_DAY + tsec d.
Proof. unfold dt_to_us, tsec, US_PER_DAY. lia. Qed.

Lemma radix_leb x x' r r' R :
  0 <= r < R -> 0 <= r' < R ->
  (x * R + r <=? x' * R + r') = ((x <? x') || ((x =? x') && (r <=? r'))).
Proof.
  intros H H'.
  destruct (Z.lt_trichotomy x x') as [Hx | [-> | Hx]].
  - assert (x * R + r < x' * R + r') by nia. zbool.
  - zbool.
  - assert (x' * R + r' < x * R + r) by nia. zbool.
Qed.

Lemma tsec_leb a b :
  valid_dtb a = true -> valid_dtb b = true ->
  (tsec a <=? tsec b)
  = lex_le [hour a; minute a; second a; microsecond a]
           [hour b; minute b; second b; microsecond b].
Proof.
  intros Ha Hb. apply valid_dtb_props in Ha. apply valid_dtb_props in Hb.
  unfold tsec.
  replace (((hour a * 60 + minute a) * 60 + second a) * 1000000 + microsecond a)
    with (hour a * 3600000000 + (minute a * 60000000 + (second a * 1000000 + microsecond a)))
    by lia.
  replace (((hour b * 60 + minute b) * 60 + second b) * 1000000 + microsecond b)
    with (hour b * 3600000000 + (minute b * 60000000 + (second b * 1000000 + microsecond b)))
    by lia.
  rewrite radix_leb by lia. rewrite (radix_leb (minute a)) by lia.
  rewrite (radix_leb (second a)) by lia.
  cbn [lex_le].
  replace (microsecond a <=? microsecond b)
    with ((microsecond a <? microsecond b) || ((microsecond a =? microsecond b) && true))
    by zbool.
  reflexivity.
Qed.

Lemma bool_lex3 x e1 y e2 z e3 t :
  x || (e1 && (y || (e2 && (z || (e3 && t)))))
  = (x || (e1 && (y || (e2 && z)))) || ((e1 && (e2 && e3)) && t).
Proof. destruct x, e1, y, e2, z, e3, t; reflexivity. Qed.

Lemma dt_le_us a b :
  valid_dtb a = true -> valid_dtb b = true ->
  dt_le a b = (dt_to_us a <=? dt_to_us b).
Proof.
  intros Ha Hb.
  pose proof (tsec_bounds a Ha). pose proof (tsec_bounds b Hb).
  pose proof (proj1 (valid_dtb_props a Ha)) as Va.
  pose proof (proj1 (valid_dtb_props b Hb)) as Vb.
  rewrite !dt_to_us_split, radix_leb by lia.
  unfold toordinal. destruct (ymd2ord_cmp _ _ _ _ _ _ Va Vb) as [-> ->].
  rewrite (tsec_leb a b Ha Hb), <- bool_lex3. reflexivity.
Qed.

Lemma dt_lt_us a b :
  valid_dtb a = true -> valid_dtb b = true ->
  dt_lt a b = (dt_to_us a <? dt_to_us b).
Proof.
  intros Ha Hb. unfold dt_lt. rewrite (dt_le_us b a Hb Ha). zbool.
Qed.

End DtOrder.

(** ** From instants back to fields *)

Module DtRound.
Import CalFacts CalOrder DtOrder.

Lemma dt_of_us_spec x :
  0 < x / US_PER_DAY <= Cal.MAXORDINAL ->
  valid_dtb (dt_of_us x) = true /\ dt_to_us (dt_of_us x) = x.
Proof.
  intros Hx. unfold dt_of_us.
  rewrite <- (Z.mod_mod_divide x US_PER_DAY 1000000) by (exists 86400; reflexivity).
  pose proof (ord2ymd_spec (x / US_PER_DAY) ltac:(lia)) as Ho.
  destruct (Cal.ord2ymd (x / US_PER_DAY)) as [[y m] d].
  destruct Ho as (Ho & Hv & Hy).
  apply valid_date_props in Hv.
  pose proof (Z.div_mod x US_PER_DAY ltac:(unfold US_PER_DAY; lia)) as E1.
  pose proof (Z.mod_pos_bound x US_PER_DAY ltac:(unfold US_PER_DAY; lia)) as B1.
  set (days := x / US_PER_DAY) in *. set (R := x mod US_PER_DAY) in *.
  pose proof (Z.div_mod R 1000000 ltac:(lia)) as E2.
  pose proof (Z.mod_pos_bound R 1000000 ltac:(lia)) as B2.
  set (secs := R / 1000000) in *. set (us := R mod 1000000) in *.
  assert (Bs : 0 <= secs < 86400) by (unfold US_PER_DAY in B1; lia).
  rewrite <- (Z.mod_mod_divide secs 3600 60) by (exists 60; reflexivity).
  pose proof (Z.div_mod secs 3600 ltac:(lia)) as E3.
  pose proof (Z.mod_pos_bound secs 3600 ltac:(lia)) as B3.
  set (h := secs / 3600) in *. set (rem := secs mod 3600) in *.
  pose proof (Z.div_mod rem 60 ltac:(lia)) as E4.
  pose proof (Z.mod_pos_bound rem 60 ltac:(lia)) as B4.
  set (mi := rem / 60) in *. set (s := rem mod 60) in *.
  assert (Bh : 0 <= h < 24) by lia.
  assert (Bmi : 0 <= mi < 60) by lia.
  split.
  - unfold valid_dtb. cbn [year month day hour minute second microsecond].
    repeat rewrite Bool.andb_true_iff. rewrite ?Z.leb_le, ?Z.ltb_lt. lia.
  - unfold dt_to_us, toordinal. cbn [year month day hour minute second microsecond].
    rewrite Ho. unfold US_PER_DAY in *. lia.
Qed.

Lemma days_in_december y : Cal.days_in_month y 12 = 31.
Proof. unfold Cal.days_in_month. destruct (Cal.is_leap y); reflexivity. Qed.

Lemma ymd2ord_range y m d :
  valid_date y m d = true -> 1 <= y <= 9999 ->
  1 <= Cal.ymd2ord y m d <= Cal.MAXORDINAL.
Proof.
  intros V Hy. pose proof (valid_date_props _ _ _ V) as [Hm Hd].
  assert (Hd12 : m = 12 -> d <= 31) by (intros ->; rewrite days_in_december in Hd; lia).
  split.
  - assert (Hc : (y = 1 /\ m = 1 /\ d = 1)
                 \/ (1 < y \/ (1 = y /\ (1 < m \/ (1 = m /\ 1 < d))))) by lia.
    destruct Hc as [(-> & -> & ->) | Hc]; [vm_compute; discriminate|].
    pose proof (ymd2ord_lt 1 1 1 y m d eq_refl V Hc) as H.
    change (Cal.ymd2ord 1 1 1) with 1 in H. lia.
  - assert (Hc : (y = 9999 /\ m = 12 /\ d = 31)
                 \/ (y < 9999 \/ (y = 9999 /\ (m < 12 \/ (m = 12 /\ d < 31))))) by lia.
    destruct Hc as [(-> & -> & ->) | Hc]; [vm_compute; discriminate|].
    pose proof (ymd2ord_lt y m d 9999 12 31 V eq_refl Hc) as H.
    change (Cal.ymd2ord 9999 12 31) with Cal.MAXORDINAL in H. lia.
Qed.

Lemma lex_le_antisym l1 l2 :
  List.length l1 = List.length l2 ->
  lex_le l1 l2 = true -> lex_le l2 l1 = true -> l1 = l2.
Proof.
  revert l2. induction l1 as [|x l1 IH]; intros [|y l2] Hl H1 H2;
    cbn in Hl; try discriminate; [reflexivity|].
  cbn [lex_le] in H1, H2.
  destruct (Z.ltb_spec x y), (Z.ltb_spec y x), (Z.eqb_spec x y), (Z.eqb_spec y x);
    cbn [andb orb] in H1, H2; try lia; try discriminate.
  subst y. f_equal. apply IH; [lia | exact H1 | exact H2].
Qed.

Lemma dt_key_inj a b : dt_key a = dt_key b -> a = b.
Proof.
  destruct a, b. cbn. intros H. injection H. intros. subst. reflexivity.
Qed.

Lemma dt_to_us_div d :
  valid_dtb d = true -> dt_to_us d / US_PER_DAY = toordinal d.
Proof.
  intros H. pose proof (tsec_bounds d H). rewrite dt_to_us_split.
  rewrite Z.div_add_l by (unfold US_PER_DAY; lia).
  rewrite (Z.div_small (tsec d)) by lia. lia.
Qed.

Lemma dt_to_us_range d :
  valid_dtb d = true -> 0 < dt_to_us d / US_PER_DAY <= Cal.MAXORDINAL.
Proof.
  intros H. rewrite dt_to_us_div by exact H.
  destruct (valid_dtb_props d H) as (V & Hy & _).
  pose proof (ymd2ord_range _ _ _ V Hy). unfold toordinal. lia.
Qed.

Lemma dt_to_us_inj a b :
  valid_dtb a = true -> valid_dtb b = true -> dt_to_us a = dt_to_us b -> a = b.
Proof.
  intros Ha Hb He.
  pose proof (dt_le_us _ _ Ha Hb) as H1. pose proof (dt_le_us _ _ Hb Ha) as H2.
  rewrite He, Z.leb_refl in H1, H2. unfold dt_le in H1, H2.
  apply dt_key_inj, lex_le_antisym; [reflexivity | exact H1 | exact H2].
Qed.

Lemma dt_of_us_to_us d : valid_dtb d = true -> dt_of_us (dt_to_us d) = d.
Proof.
  intros H.
  destruct (dt_of_us_spec (dt_to_us d) (dt_to_us_range d H)) as [Hv He].
  exact (dt_to_us_inj _ _ Hv H He).
Qed.

End DtRound.

(** ** Parsing what [strftime] prints *)

Module StrRound.
Import CalFacts CalOrder DtOrder.

Ltac range_cases v lo n :=
  let H := fresh "Hin" in
  assert (H : In v (zseq lo n)) by (apply in_zseq; lia);
  vm_compute in H; repeat destruct H as [<- | H]; try contradiction.

Lemma days_in_month_le31 y m : 1 <= m <= 12 -> Cal.days_in_month y m <= 31.
Proof.
  intros H. month_cases m; unfold Cal.days_in_month;
    destruct (Cal.is_leap y); apply Z.leb_le; vm_compute; reflexivity.
Qed.

Lemma digit_spec k : 0 <= k <= 9 -> is_digit (digit k) = true /\ dval (digit k) = k.
Proof. intros H. range_cases k 0 10%nat; split; reflexivity. Qed.

Lemma lit_same c r : lit c (String c r) = Some r.
Proof. unfold lit. rewrite Ascii.eqb_refl. reflexivity. Qed.

Lemma p_Y_pad4 y r : 0 <= y <= 9999 -> p_Y (pad4 y ++ r)%string = Some (y, r).
Proof.
  intros H. unfold pad4. cbn [String.append]. unfold p_Y.
  pose proof (Z.div_mod y 10 ltac:(lia)) as E1.
  pose proof (Z.div_mod (y / 10) 10 ltac:(lia)) as E2.
  pose proof (Z.div_mod (y / 100) 10 ltac:(lia)) as E3.
  rewrite Z.div_div in E2 by lia. rewrite Z.div_div in E3 by lia.
  change (10 * 10) with 100 in E2. change (100 * 10) with 1000 in E3.
  pose proof (Z.mod_pos_bound y 10 ltac:(lia)).
  pose proof (Z.mod_pos_bound (y / 10) 10 ltac:(lia)).
  pose proof (Z.mod_pos_bound (y / 100) 10 ltac:(lia)).
  assert (0 <= y / 1000 <= 9).
  { split; [apply Z.div_pos | cut (y / 1000 < 10); [lia | apply Z.div_lt_upper_bound]]; lia. }
  destruct (digit_spec (y / 1000) ltac:(lia)) as [A1 B1].
  destruct (digit_spec ((y / 100) mod 10) ltac:(lia)) as [A2 B2].
  destruct (digit_spec ((y / 10) mod 10) ltac:(lia)) as [A3 B3].
  destruct (digit_spec (y mod 10) ltac:(lia)) as [A4 B4].
  rewrite A1, A2, A3, A4, B1, B2, B3, B4. cbn [andb].
  do 2 f_equal. lia.
Qed.

Lemma p_m_pad2 m r : 1 <= m <= 12 -> p_m (pad2 m ++ r)%string = Some (m, r).
Proof. intros H. range_cases m 1 12%nat; reflexivity. Qed.

Lemma p_d_pad2 d r : 1 <= d <= 31 -> p_d (pad2 d ++ r)%string = Some (d, r).
Proof. intros H. range_cases d 1 31%nat; reflexivity. Qed.

Lemma p_H_pad2 h r : 0 <= h < 24 -> p_H (pad2 h ++ r)%string = Some (h, r).
Proof. intros H. range_cases h 0 24%nat; reflexivity. Qed.

Lemma p_M_pad2 m r : 0 <= m < 60 -> p_M (pad2 m ++ r)%string = Some (m, r).
Proof. intros H. range_cases m 0 60%nat; reflexivity. Qed.

Lemma p_S_pad2 s r : 0 <= s < 60 -> p_S (pad2 s ++ r)%string = Some (s, r).
Proof. intros H. range_cases s 0 60%nat; reflexivity. Qed.

Lemma valid_dtb_us0 y m d h mi s us :
  valid_dtb (mkdt y m d h mi s us) = true -> valid_dtb (mkdt y m d h mi s 0) = true.
Proof.
  unfold valid_dtb. cbn [year month day hour minute second microsecond].
  rewrite !Bool.andb_true_iff. intros H. intuition.
Qed.

Lemma strptime_strftime a :
  valid_dtb a = true ->
  strptime (strftime a)
  = Some (mkdt (year a) (month a) (day a) (hour a) (minute a) (second a) 0).
Proof.
  intros Hv. pose proof (valid_dtb_props a Hv) as (V & Hy & Hh & Hmi & Hs & _).
  apply valid_date_props in V as [Hm Hd].
  pose proof (days_in_month_le31 (year a) (month a) Hm).
  destruct a as [y m d h mi s us].
  cbn [year month day hour minute second microsecond] in *.
  pose proof (valid_dtb_us0 _ _ _ _ _ _ _ Hv) as Hv0.
  unfold strftime, strptime. cbn [year month day hour minute second].
  rewrite p_Y_pad4 by lia. cbn [String.append]. rewrite lit_same.
  rewrite p_m_pad2 by lia. cbn [String.append]. rewrite lit_same.
  rewrite p_d_pad2 by lia. cbn [String.append]. rewrite lit_same.
  rewrite p_H_pad2 by lia. cbn [String.append]. rewrite lit_same.
  rewrite p_M_pad2 by lia. cbn [String.append]. rewrite lit_same.
  rewrite p_S_pad2 by lia. cbn [String.append]. rewrite lit_same.
  rewrite Hv0. reflexivity.
Qed.

End StrRound.

(** ** Arithmetic of the datetime operations *)

Module DtArith.
Import DtOrder DtRound.

Lemma strptime_valid s d : strptime s = Some d -> valid_dtb d = true.
Proof.
  unfold strptime.
  repeat match goal with
  | |- context [match ?x with Some _ => _ | None => _ end] => destruct x
  | |- context [match ?x with (_, _) => _ end] => destruct x
  | |- context [match ?x with EmptyString => _ | String _ _ => _ end] => destruct x
  end; try discriminate.
  match goal with |- context [if valid_dtb ?r then _ else _] =>
    destruct (valid_dtb r) eqn:E end; intros H; [injection H as <-; exact E | discriminate].
Qed.

Lemma dt_add_eq d td :
  dt_add d td
  = if in_range (dt_to_us d + td) then Ok (dt_of_us (dt_to_us d + td)) else Exc OverflowError.
Proof. unfold dt_add, in_range. reflexivity. Qed.

Lemma in_range_spec x : in_range x = true -> 0 < x / US_PER_DAY <= Cal.MAXORDINAL.
Proof.
  unfold in_range. rewrite Bool.andb_true_iff, Z.ltb_lt, Z.leb_le. lia.
Qed.

Lemma dt_add_spec d td d' :
  dt_add d td = Ok d' -> valid_dtb d' = true /\ dt_to_us d' = dt_to_us d + td.
Proof.
  rewrite dt_add_eq. destruct (in_range (dt_to_us d + td)) eqn:E; [|discriminate].
  intros H. injection H as <-. exact (dt_of_us_spec _ (in_range_spec _ E)).
Qed.

Lemma mk_td_ok x y : mk_td x = Ok y -> y = x.
Proof.
  unfold mk_td. destruct (_ && _); [|discriminate]. intros H. injection H. auto.
Qed.

Lemma dt_sub_spec d td d' :
  dt_sub d td = Ok d' -> valid_dtb d' = true /\ dt_to_us d' = dt_to_us d - td.
Proof.
  unfold dt_sub. destruct (mk_td (- td)) as [n|e] eqn:E; cbn [bind]; [|discriminate].
  apply mk_td_ok in E. subst n. intros H. apply dt_add_spec in H as [Hv Hu]. split; [exact Hv | lia].
Qed.

Lemma timedelta_dhms_mult d h m s t :
  timedelta_dhms d h m s = Ok t -> exists k, t = k * 1000000.
Proof.
  unfold timedelta_dhms. intros H. apply mk_td_ok in H. subst t. eexists. reflexivity.
Qed.

Lemma dt_to_us_mod d : valid_dtb d = true -> dt_to_us d mod 1000000 = microsecond d.
Proof.
  intros H. pose proof (valid_dtb_props d H) as (_ & _ & _ & _ & _ & Hus).
  unfold dt_to_us. rewrite Z.add_comm, Z.mod_add by lia. apply Z.mod_small. exact Hus.
Qed.

Lemma dt_to_us_trunc d :
  valid_dtb d = true ->
  dt_to_us (mkdt (year d) (month d) (day d) (hour d) (minute d) (second d) 0)
  = dt_to_us d - dt_to_us d mod 1000000.
Proof.
  intros H. rewrite (dt_to_us_mod d H). unfold dt_to_us, toordinal. cbn. lia.
Qed.

Lemma endpoints_formula_ok q s e tz ss es :
  endpoints_formula q s e tz = Ok (ss, es) ->
  exists tzd ts te x y,
    timedelta_dhms 0 tz 0 0 = Ok tzd /\ to_timedelta s = Ok ts /\ to_timedelta e = Ok te
    /\ ss = strftime x /\ es = strftime y
    /\ valid_dtb x = true /\ valid_dtb y = true
    /\ dt_to_us x = dt_to_us q + ts - tzd /\ dt_to_us y = dt_to_us q + te - tzd.
Proof.
  unfold endpoints_formula.
  destruct (timedelta_dhms 0 tz 0 0) as [tzd|err]; cbn [bind]; [|discriminate].
  destruct (to_timedelta s) as [ts|err]; cbn [bind]; [|discriminate].
  destruct (dt_add q ts) as [x|err] eqn:Ex; cbn [bind]; [|discriminate].
  destruct (dt_sub x tzd) as [x'|err] eqn:Ex'; cbn [bind]; [|discriminate].
  destruct (to_timedelta e) as [te|err]; cbn [bind]; [|discriminate].
  destruct (dt_add q te) as [y|err] eqn:Ey; cbn [bind]; [|discriminate].
  destruct (dt_sub y tzd) as [y'|err] eqn:Ey'; cbn [bind]; [|discriminate].
  intros H. injection H as <- <-.
  apply dt_add_spec in Ex as [_ Hx], Ey as [_ Hy].
  apply dt_sub_spec in Ex' as [Vx Hx'], Ey' as [Vy Hy'].
  exists tzd, ts, te, x', y'. repeat split; auto; lia.
Qed.

End DtArith.

(** ** The loop of [generate_datetime_list] *)

Module GenLoop.
Import DtOrder DtRound DtArith.

Lemma gen_count_step c e delta n :
  0 < delta -> c <= e -> gen_count c e delta = S n -> gen_count (c + delta) e delta = n.
Proof.
  intros Hd Hce. unfold gen_count.
  destruct (Z.ltb_spec e c); [lia|]. intros Hn.
  destruct (Z.ltb_spec e (c + delta)).
  - rewrite Z.div_small in Hn by lia. lia.
  - replace (e - (c + delta)) with ((e - c) + (-1) * delta) by ring.
    rewrite Z.div_add by lia.
    assert (0 <= (e - c) / delta) by (apply Z.div_pos; lia). lia.
Qed.

Lemma in_range_between a x b :
  in_range a = true -> in_range b = true -> a <= x <= b -> in_range x = true.
Proof.
  intros Ha Hb Hx. apply in_range_spec in Ha, Hb. unfold in_range.
  rewrite Bool.andb_true_iff, Z.ltb_lt, Z.leb_le.
  assert (a / US_PER_DAY <= x / US_PER_DAY) by (apply Z.div_le_mono; unfold US_PER_DAY; lia).
  assert (x / US_PER_DAY <= b / US_PER_DAY) by (apply Z.div_le_mono; unfold US_PER_DAY; lia).
  lia.
Qed.

Lemma in_range_valid d : valid_dtb d = true -> in_range (dt_to_us d) = true.
Proof.
  intros H. pose proof (dt_to_us_range d H). unfold in_range.
  rewrite Bool.andb_true_iff, Z.ltb_lt, Z.leb_le. lia.
Qed.

Lemma map_seq_cons (f : nat -> string) n :
  map f (seq 0 (S n)) = f O :: map (fun k => f (S k)) (seq 0 n).
Proof. cbn [seq map]. rewrite <- seq_shift, map_map. reflexivity. Qed.

Section Loop.
Variables (en : datetime) (delta : Z).
Hypothesis Hen : valid_dtb en = true.
Hypothesis Hd : 0 < delta.

Lemma gen_loop_spec n :
  forall cur fuel, valid_dtb cur = true ->
  gen_count (dt_to_us cur) (dt_to_us en) delta = n -> (n < fuel)%nat ->
  gen_loop fuel cur en delta = Some (generate_spec cur en delta).
Proof.
  induction n as [|n IH]; intros cur fuel Hc Hn Hf;
    (destruct fuel as [|f]; [lia|]); cbn [gen_loop];
    rewrite (dt_le_us _ _ Hc Hen); unfold generate_spec; rewrite Hn.
  - unfold gen_count in Hn. destruct (Z.ltb_spec (dt_to_us en) (dt_to_us cur)).
    + destruct (Z.leb_spec (dt_to_us cur) (dt_to_us en)); [lia | reflexivity].
    + assert (0 <= (dt_to_us en - dt_to_us cur) / delta) by (apply Z.div_pos; lia).
      lia.
  - assert (Hle : dt_to_us cur <= dt_to_us en).
    { unfold gen_count in Hn. destruct (Z.ltb_spec (dt_to_us en) (dt_to_us cur));
        [discriminate | lia]. }
    destruct (Z.leb_spec (dt_to_us cur) (dt_to_us en)); [|lia].
    pose proof (gen_count_step _ _ _ _ Hd Hle Hn) as Hn'.
    rewrite dt_add_eq.
    destruct (in_range (dt_to_us cur + delta)) eqn:Er.
    + destruct (dt_of_us_spec _ (in_range_spec _ Er)) as [Hv Hu].
      rewrite (IH _ f Hv) by (try rewrite Hu; first [exact Hn' | lia]).
      unfold generate_spec. rewrite Hu, Hn'.
      destruct n as [|n].
      * replace (dt_to_us cur + Z.of_nat 1 * delta) with (dt_to_us cur + delta) by lia.
        rewrite Er. cbn [seq map].
        replace (dt_to_us cur + Z.of_nat 0 * delta) with (dt_to_us cur) by lia.
        rewrite dt_of_us_to_us by exact Hc.
        reflexivity.
      * replace (dt_to_us cur + Z.of_nat (S (S n)) * delta)
          with (dt_to_us cur + delta + Z.of_nat (S n) * delta) by lia.
        destruct (in_range (dt_to_us cur + delta + Z.of_nat (S n) * delta)); [|reflexivity].
        rewrite (map_seq_cons _ (S n)). cbv beta.
        replace (dt_to_us cur + Z.of_nat 0 * delta) with (dt_to_us cur) by lia.
        rewrite dt_of_us_to_us by exact Hc.
        do 3 f_equal. apply map_ext. intros k. do 2 f_equal. lia.
    + destruct n as [|n].
      * replace (dt_to_us cur + Z.of_nat 1 * delta) with (dt_to_us cur + delta) by lia.
        rewrite Er. reflexivity.
      * exfalso.
        assert (Hlt : dt_to_us cur + delta <= dt_to_us en).
        { unfold gen_count in Hn'. destruct (Z.ltb_spec (dt_to_us en) (dt_to_us cur + delta));
            [discriminate | lia]. }
        rewrite (in_range_between _ _ _ (in_range_valid _ Hc) (in_range_valid _ Hen)) in Er;
          [discriminate | lia].
Qed.

End Loop.

End GenLoop.

(** ** Daylight saving, window length and the date list *)

Import DtOrder StrRound DtArith GenLoop.

Lemma ltb_diff_pos x y : (0 <? x - y) = (y <? x).
Proof. destruct (Z.ltb_spec 0 (x - y)), (Z.ltb_spec y x); lia. Qed.

(** C4: for every valid instant [d], [timezone_offset d] is -7 exactly when
    [d] is strictly after 2024-03-10T02:00 and strictly before
    2024-11-03T01:00, and -8 otherwise; the two transition instants
    themselves give -8. *)
Theorem timezone_offset_dst (d : datetime) :
  valid_dtb d = true ->
  (timezone_offset d = -7 <-> dt_lt DST_start d = true /\ dt_lt d DST_end = true)
  /\ (timezone_offset d = -8 <-> ~ (dt_lt DST_start d = true /\ dt_lt d DST_end = true))
  /\ timezone_offset DST_start = -8 /\ timezone_offset DST_end = -8.
Proof.
  intros Hd.
  assert (Hs : valid_dtb DST_start = true) by reflexivity.
  assert (He : valid_dtb DST_end = true) by reflexivity.
  rewrite (dt_lt_us _ _ Hs Hd), (dt_lt_us _ _ Hd He).
  unfold timezone_offset, total_seconds_pos, dt_diff. rewrite !ltb_diff_pos.
  split; [|split; [|split; vm_compute; reflexivity]];
    destruct (dt_to_us DST_start <? dt_to_us d), (dt_to_us d <? dt_to_us DST_end);
    cbn [andb]; intuition congruence.
Qed.

Lemma timezone_offset_dst_witness :
  valid_dtb (mkdt 2024 5 16 0 0 0 0) = true
  /\ (timezone_offset (mkdt 2024 5 16 0 0 0 0) = -7
      <-> dt_lt DST_start (mkdt 2024 5 16 0 0 0 0) = true
          /\ dt_lt (mkdt 2024 5 16 0 0 0 0) DST_end = true).
Proof.
  split; [reflexivity|].
  exact (proj1 (timezone_offset_dst (mkdt 2024 5 16 0 0 0 0) eq_refl)).
Defined.

(** C9: whatever the timezone offset, parsing the two strings returned by
    [construct_query_time_endpoints] and subtracting them gives the end
    offset's duration minus the start offset's: the same [tz] is subtracted
    from both endpoints, and the microseconds [strftime] drops are the same
    on both. *)
Theorem endpoints_window_length (r : pyval) (q : datetime) (a b : offset_arg)
    (s e : DeltaTime) (tz : Z) (ss es : string) :
  valid_dtb q = true -> ref_denotes r q -> offset_denotes a s -> offset_denotes b e ->
  construct_query_time_endpoints r a b tz = Ok (ss, es) ->
  exists ts te ps pe,
    to_timedelta s = Ok ts /\ to_timedelta e = Ok te
    /\ strptime ss = Some ps /\ strptime es = Some pe
    /\ dt_diff pe ps = te - ts.
Proof.
  intros Hq Hr Ha Hb H.
  rewrite (endpoints_formula_eq _ _ _ _ _ _ _ Hr Ha Hb) in H.
  destruct (endpoints_formula_ok _ _ _ _ _ _ H)
    as (tzd & ts & te & x & y & Etz & Es & Ee & -> & -> & Vx & Vy & Hx & Hy).
  exists ts, te.
  exists (mkdt (year x) (month x) (day x) (hour x) (minute x) (second x) 0).
  exists (mkdt (year y) (month y) (day y) (hour y) (minute y) (second y) 0).
  split; [exact Es|]. split; [exact Ee|].
  split; [exact (strptime_strftime x Vx)|]. split; [exact (strptime_strftime y Vy)|].
  unfold dt_diff. rewrite (dt_to_us_trunc x Vx), (dt_to_us_trunc y Vy), Hx, Hy.
  destruct (timedelta_dhms_mult _ _ _ _ _ Etz) as [kz ->].
  destruct (timedelta_dhms_mult _ _ _ _ _ Es) as [ks ->].
  destruct (timedelta_dhms_mult _ _ _ _ _ Ee) as [ke ->].
  assert (M : forall k, (dt_to_us q + k * 1000000 - kz * 1000000) mod 1000000
                        = dt_to_us q mod 1000000).
  { intros k. replace (dt_to_us q + k * 1000000 - kz * 1000000)
      with (dt_to_us q + (k - kz) * 1000000) by lia.
    apply Z.mod_add. lia. }
  rewrite !M. lia.
Qed.

Lemma endpoints_window_length_witness :
  exists ts te ps pe,
    to_timedelta (mkDeltaTime 0 (-2) 0 0) = Ok ts
    /\ to_timedelta (mkDeltaTime 0 1 0 0) = Ok te
    /\ strptime "2024-05-16T16:00:00Z" = Some ps
    /\ strptime "2024-05-16T19:00:00Z" = Some pe
    /\ dt_diff pe ps = te - ts.
Proof.
  apply (endpoints_window_length (PStr "2024-05-16T10:00:00Z") (mkdt 2024 5 16 10 0 0 0)
    (OffSeq [0; -2; 0; 0]) (OffSeq [0; 1; 0; 0])
    (mkDeltaTime 0 (-2) 0 0) (mkDeltaTime 0 1 0 0) (-8)).
  - reflexivity.
  - right. exists "2024-05-16T10:00:00Z"%string. split; [reflexivity | vm_compute; reflexivity].
  - right. reflexivity.
  - right. reflexivity.
  - vm_compute. reflexivity.
Defined.

(** C6 (counterexample): the list is not produced for every parseable pair
    and positive delta.  From 9999-12-31T00:00:00Z to itself by one day the
    loop appends the single instant, then [current += delta] leaves the range
    of [datetime] and raises [OverflowError], however long it is let run. *)
Lemma generate_datetime_list_overflow :
  ~ exists l N, forall fuel, (N <= fuel)%nat ->
      generate_datetime_list fuel "9999-12-31T00:00:00Z" "9999-12-31T00:00:00Z" DAY
      = Some (Ok l).
Proof.
  intros (l & N & H). specialize (H (S N) (Nat.le_succ_diag_r N)).
  vm_compute in H. discriminate.
Qed.

(** C6 (as the code behaves): for parseable [start_date] and [end_date] and a
    positive [delta], the loop finishes within [gen_count + 1] rounds with
    [generate_spec]: the formatted instants [start], [start + delta], ... that
    are at most [end_date], in order, or [OverflowError] when the step after
    the last of them leaves [datetime]'s range.  From 2024-02-01 to
    2024-02-03 by one day it gives the three dates; from 9999-12-31 to itself
    it raises. *)
Theorem generate_datetime_list_spec (start_date end_date : string)
    (start end_ : datetime) (delta : Z) (fuel : nat) :
  strptime start_date = Some start -> strptime end_date = Some end_ -> 0 < delta ->
  (gen_count (dt_to_us start) (dt_to_us end_) delta < fuel)%nat ->
  generate_datetime_list fuel start_date end_date delta = Some (generate_spec start end_ delta)
  /\ generate_datetime_list 10 "2024-02-01T00:00:00Z" "2024-02-03T00:00:00Z" DAY
     = Some (Ok ["2024-02-01T00:00:00Z"; "2024-02-02T00:00:00Z";
                 "2024-02-03T00:00:00Z"])%string
  /\ generate_datetime_list 10 "9999-12-31T00:00:00Z" "9999-12-31T00:00:00Z" DAY
     = Some (Exc OverflowError).
Proof.
  intros Hs He Hd Hf. split; [|split; vm_compute; reflexivity].
  unfold generate_datetime_list. rewrite Hs, He.
  exact (gen_loop_spec end_ delta (strptime_valid _ _ He) Hd _ start fuel
           (strptime_valid _ _ Hs) eq_refl Hf).
Qed.

Lemma generate_datetime_list_spec_witness :
  generate_datetime_list 10 "2024-02-01T00:00:00Z" "2024-02-03T00:00:00Z" DAY
  = Some (generate_spec (mkdt 2024 2 1 0 0 0 0) (mkdt 2024 2 3 0 0 0 0) DAY).
Proof.
  exact (proj1 (generate_datetime_list_spec
    "2024-02-01T00:00:00Z" "2024-02-03T00:00:00Z"
    (mkdt 2024 2 1 0 0 0 0) (mkdt 2024 2 3 0 0 0 0) DAY 10
    ltac:(vm_compute; reflexivity) ltac:(vm_compute; reflexivity)
    ltac:(vm_compute; reflexivity) ltac:(apply Nat.ltb_lt; vm_compute; reflexivity))).
Defined.

(** * Further properties of the package *)

(** ** Frames through [drop_columns], [set_index] and [dropna] *)

Module Frames.

Lemma mem_In x l : mem x l = true <-> In x l.
Proof.
  unfold mem. rewrite existsb_exists. split.
  - intros (y & Hy & E). apply String.eqb_eq in E. subst. exact Hy.
  - intros H. exists x. split; [exact H | apply String.eqb_refl].
Qed.

Lemma drop_columns_names df l df' :
  drop_columns df l = Ok df' ->
  df_index df' = df_index df
  /\ forall c, In c (col_names df') -> In c (col_names df) /\ ~ In c l.
Proof.
  unfold drop_columns, df_drop_columns. destruct (forallb _ _); [|discriminate].
  intros H. injection H as <-. split; [reflexivity|]. intros c Hc.
  unfold col_names in *. cbn in Hc. apply in_map_iff in Hc as ([k v] & Hk & Hin).
  cbn in Hk. subst k. apply filter_In in Hin as [Hin Hn]. cbn in Hn.
  split; [exact (in_map fst _ _ Hin)|]. intros Hl.
  apply Bool.negb_true_iff in Hn.
  assert (mem c (filter (fun c0 => mem c0 (map fst (df_columns df))) l) = true) as Hm.
  { apply mem_In, filter_In. split; [exact Hl|]. apply mem_In. exact (in_map fst _ _ Hin). }
  congruence.
Qed.

Lemma set_index_spec df key df' :
  set_index df key = Ok df' ->
  In (key, df_index df') (df_columns df)
  /\ df_columns df' = filter (fun c => negb (String.eqb (fst c) key)) (df_columns df).
Proof.
  unfold set_index.
  destruct (find (fun c => String.eqb (fst c) key) (df_columns df)) as [[k v]|] eqn:Hf;
    [|discriminate].
  intros H. injection H as <-. cbn.
  apply find_some in Hf as [Hin Hk]. cbn in Hk. apply String.eqb_eq in Hk. subst k.
  split; [exact Hin | reflexivity].
Qed.

Lemma set_index_names df key df' :
  set_index df key = Ok df' -> forall c, In c (col_names df') -> In c (col_names df) /\ c <> key.
Proof.
  intros H c Hc. apply set_index_spec in H as [_ Hcols].
  unfold col_names in *. rewrite Hcols in Hc.
  apply in_map_iff in Hc as ([k v] & Hk & Hin). cbn in Hk. subst k.
  apply filter_In in Hin as [Hin Hn]. cbn in Hn.
  split; [exact (in_map fst _ _ Hin)|]. intros ->. rewrite String.eqb_refl in Hn. discriminate.
Qed.

Lemma set_index_KeyError df key :
  set_index df key = Exc KeyError <-> ~ In key (col_names df).
Proof.
  split.
  - intros H Hin. destruct (set_index_present df key Hin) as [df' E]. congruence.
  - intros Hn. unfold set_index.
    destruct (find (fun c => String.eqb (fst c) key) (df_columns df)) as [[k v]|] eqn:Hf;
      [|reflexivity].
    exfalso. apply find_some in Hf as [Hin Hk]. cbn in Hk. apply String.eqb_eq in Hk.
    subst k. exact (Hn (in_map fst _ _ Hin)).
Qed.

Lemma set_index_ok_or_KeyError df key :
  set_index df key = Exc KeyError \/ exists df', set_index df key = Ok df'.
Proof.
  unfold set_index. destruct (find _ _) as [[k v]|]; [right; eexists; reflexivity | left; reflexivity].
Qed.

Lemma dropna_names df : col_names (dropna_all df) = col_names df.
Proof. unfold col_names, dropna_all. cbn. rewrite map_map. reflexivity. Qed.

Lemma select_map_seq {A} (f : nat -> bool) (l : list A) (d : A) a :
  select (map f (seq a (List.length l))) l
  = map (fun j => nth (j - a) l d) (filter f (seq a (List.length l))).
Proof.
  revert a. induction l as [|x l IH]; intros a; [reflexivity|].
  cbn [List.length seq map select filter]. rewrite IH.
  assert (E : map (fun j => nth (j - S a) l d) (filter f (seq (S a) (List.length l)))
              = map (fun j => nth (j - a) (x :: l) d) (filter f (seq (S a) (List.length l)))).
  { apply map_ext_in. intros j Hj. apply filter_In in Hj as [Hj _].
    apply in_seq in Hj. replace (j - a)%nat with (S (j - S a)) by lia. reflexivity. }
  destruct (f a); cbn [map]; rewrite E; [|reflexivity].
  rewrite Nat.sub_diag. reflexivity.
Qed.

Definition wf (df : dataframe) : Prop :=
  forall c, In c (df_columns df) -> List.length (snd c) = nrows df.

Lemma dropna_spec df :
  wf df ->
  let K := filter (row_has_value df) (seq 0 (nrows df)) in
  nrows (dropna_all df) = List.length K
  /\ wf (dropna_all df)
  /\ (forall i, (i < nrows (dropna_all df))%nat -> row_has_value (dropna_all df) i = true)
  /\ (nrows (dropna_all df) <= nrows df)%nat.
Proof.
  intros Hwf K.
  assert (Sel : forall l : list cell, List.length l = nrows df ->
            select (map (row_has_value df) (seq 0 (nrows df))) l
            = map (fun j => nth j l None) K).
  { intros l Hl. rewrite <- Hl, (select_map_seq _ l None 0), Hl.
    apply map_ext. intros j. rewrite Nat.sub_0_r. reflexivity. }
  assert (Hn : nrows (dropna_all df) = List.length K).
  { unfold nrows at 1, dropna_all. cbn [df_index].
    rewrite Sel by reflexivity. apply length_map. }
  split; [exact Hn|]. split; [|split].
  - intros c Hc. unfold dropna_all in Hc. cbn in Hc.
    apply in_map_iff in Hc as ([k v] & <- & Hin). cbn [snd].
    rewrite Sel by exact (Hwf _ Hin). rewrite Hn. apply length_map.
  - intros i Hi. rewrite Hn in Hi.
    destruct (nth_error K i) as [j|] eqn:Ej;
      [|apply nth_error_None in Ej; lia].
    assert (Hj : In j K) by (eapply nth_error_In; exact Ej).
    apply filter_In in Hj as [_ Hrow].
    unfold row_has_value in Hrow. apply existsb_exists in Hrow as ([k v] & Hin & Hv).
    cbn [snd] in Hv.
    destruct (nth_error v j) as [[x|]|] eqn:Ev; try discriminate.
    unfold row_has_value. apply existsb_exists.
    exists (k, select (map (row_has_value df) (seq 0 (nrows df))) v). split.
    + unfold dropna_all. cbn. apply (in_map (fun c => (fst c, _ (snd c))) _ (k, v) Hin).
    + cbn [snd]. rewrite Sel by exact (Hwf _ Hin).
      rewrite nth_error_map, Ej. cbn. rewrite (nth_error_nth _ _ _ Ev). reflexivity.
  - rewrite Hn. unfold K. rewrite <- (length_seq (nrows df) 0) at 2.
    apply filter_length_le.
Qed.

End Frames.


Module MappingFacts.
Import Frames.

Lemma assoc_In {A} k (l : list (string * A)) v : assoc k l = Some v -> In (k, v) l.
Proof.
  induction l as [|[k' v'] l IH]; cbn; [discriminate|].
  destruct (String.eqb_spec k k') as [->|_]; [intros H; injection H as <-; left; reflexivity|].
  intros H. right. exact (IH H).
Qed.

Lemma assoc_None {A} k (l : list (string * A)) : assoc k l = None <-> ~ In k (map fst l).
Proof.
  induction l as [|[k' v'] l IH]; cbn; [tauto|].
  destruct (String.eqb_spec k k') as [->|Hne]; [split; [discriminate | tauto]|].
  rewrite IH. split; [intros H [E|E]; [congruence | exact (H E)] | tauto].
Qed.

Lemma config_fields_cases k :
  In k config_fields ->
  k = "time_format"%string \/ k = "delta_time_start"%string \/ k = "delta_time_end"%string
  \/ k = "tz_offset"%string \/ k = "bucket"%string \/ k = "columns_to_drop"%string
  \/ k = "filter"%string \/ k = "column_key"%string \/ k = "aggregate_function"%string
  \/ k = "aggregate_window"%string \/ k = "sort_by"%string.
Proof. cbn. intuition. Qed.

(** A configuration built from keyword arguments: the offsets and [sort_by]
    are never [None] after [__post_init__]; a keyword given a value other
    than [None] is stored under its name; the keys are exactly the fields, so
    [config[k]] raises [KeyError] for every other [k]; and every key is a
    parameter of [query_database] other than [client] and [query_time], so
    [query_database(client=..., query_time=..., **config)] binds each of
    them once. *)
Theorem DataExtractorQueryConfig_fields (kwargs : list (string * pyval)) (c : QueryConfig)
    (H : DataExtractorQueryConfig kwargs = Ok c) :
  qc_delta_time_start c <> PNone /\ qc_delta_time_end c <> PNone /\ qc_sort_by c <> PNone
  /\ (forall k v, assoc k kwargs = Some v -> v <> PNone -> qc_getitem c k = Ok v)
  /\ (forall k, qc_getitem c k = Exc KeyError <-> ~ In k config_fields)
  /\ qc_iter c = config_fields
  /\ (forall k, In k (qc_iter c) ->
        In k query_database_params /\ k <> "client"%string /\ k <> "query_time"%string).
Proof.
  unfold DataExtractorQueryConfig in H.
  destruct (forallb (fun kv => mem (fst kv) config_fields) kwargs) eqn:E; [|discriminate].
  injection H as <-.
  split; [|split; [|split; [|split; [|split; [|split]]]]].
  - cbn. destruct (assoc "delta_time_start" kwargs) as [[]|]; cbn; discriminate.
  - cbn. destruct (assoc "delta_time_end" kwargs) as [[]|]; cbn; discriminate.
  - cbn. destruct (assoc "sort_by" kwargs) as [[]|]; cbn; discriminate.
  - intros k v Hk Hv.
    assert (Hf : In k config_fields).
    { apply assoc_In in Hk. rewrite forallb_forall in E.
      apply mem_In, (E (k, v)), Hk. }
    apply config_fields_cases in Hf.
    repeat destruct Hf as [-> | Hf]; subst; unfold qc_getitem; cbn; rewrite Hk;
      destruct v; try reflexivity; congruence.
  - intros k. unfold qc_getitem.
    destruct (assoc k (qc_dict _)) eqn:Ek.
    + split; [discriminate|]. intros Hn. exfalso. apply Hn.
      apply assoc_In in Ek. exact (in_map fst _ _ Ek).
    + split; [intros _|reflexivity]. apply assoc_None in Ek. exact Ek.
  - reflexivity.
  - intros k Hk. cbn in Hk.
    repeat destruct Hk as [<- | Hk]; try contradiction;
      (split; [cbn; tauto | split; discriminate]).
Qed.

(** A witness: [tz_offset=-8, bucket="b"]. *)
Lemma DataExtractorQueryConfig_fields_witness :
  DataExtractorQueryConfig [("tz_offset", PInt (-8)); ("bucket", PStr "b")]%string
    = Ok (post_init (mkQueryConfig (PStr DEFAULT_TIME_FORMAT) PNone PNone (PInt (-8))
            (PStr "b") PNone (PStr default_filter) (PStr "id") (PStr "last")
            (PStr "1s") PNone))%string
  /\ qc_getitem (post_init (mkQueryConfig (PStr DEFAULT_TIME_FORMAT) PNone PNone (PInt (-8))
            (PStr "b") PNone (PStr default_filter) (PStr "id") (PStr "last")
            (PStr "1s") PNone))%string "tz_offset"%string = Ok (PInt (-8)).
Proof.
  split; [vm_compute; reflexivity|].
  apply (DataExtractorQueryConfig_fields
           [("tz_offset", PInt (-8)); ("bucket", PStr "b")]%string _ ltac:(vm_compute; reflexivity)).
  - reflexivity.
  - discriminate.
Defined.

End MappingFacts.


Module QueryFacts.
Import Frames.

Lemma bind_Ok {A B} (m : result A) (k : A -> result B) b :
  bind m k = Ok b -> exists a, m = Ok a /\ k a = Ok b.
Proof. destruct m as [a|e]; cbn; [intros H; exists a; split; [reflexivity | exact H] | discriminate]. Qed.

Lemma query_database_Some client bucket qt s e cols filter ck tz af aw sb df :
  query_database client bucket qt s e cols filter ck tz af aw sb = Ok (Some df) ->
  exists q r l, client q = Some r /\ cols = Some l /\ drop_columns r l = Ok df.
Proof.
  unfold query_database. intros H.
  apply bind_Ok in H as ([ss es] & _ & H).
  apply bind_Ok in H as (sl & _ & H).
  apply bind_Ok in H as (el & _ & H).
  destruct (client _) as [r|] eqn:Ec; [|discriminate].
  destruct cols as [l|]; [|discriminate].
  apply bind_Ok in H as (df' & Hd & H). injection H as <-.
  exists (flux_query bucket ss es tz filter ck af aw sb), r, l. auto.
Qed.

(** A frame returned by [query_database] is the client's frame with the
    requested columns dropped: same rows, no new column, and none of
    [columns_to_drop] left.  With [columns_to_drop=None] (the default) it
    never returns a frame. *)
Theorem query_database_dropped client bucket qt s e cols filter ck tz af aw sb df
    (H : query_database client bucket qt s e cols filter ck tz af aw sb = Ok (Some df)) :
  exists q r l, client q = Some r /\ cols = Some l /\ df_index df = df_index r
    /\ forall c, In c (col_names df) -> In c (col_names r) /\ ~ In c l.
Proof.
  destruct (query_database_Some _ _ _ _ _ _ _ _ _ _ _ _ _ H) as (q & r & l & Hq & -> & Hd).
  apply drop_columns_names in Hd as [Hi Hc].
  exists q, r, l. auto.
Qed.

Lemma query_database_dropped_witness :
  exists df, query_database (fun _ : string => Some sample_frame) "b" (PStr "2024-05-16T00:00:00Z")
      (OffSeq [0; 0; 0; 0]) (OffSeq [0; 24; 0; 0]) (Some ["table"; "result"]%string)
      day_filter "id" (-7) "last" "1s" ["_time"]%string = Ok (Some df)
    /\ exists q r l, (fun _ : string => Some sample_frame) q = Some r
       /\ Some ["table"; "result"]%string = Some l /\ df_index df = df_index r
       /\ forall c, In c (col_names df) -> In c (col_names r) /\ ~ In c l.
Proof.
  destruct (query_database (fun _ : string => Some sample_frame) "b" (PStr "2024-05-16T00:00:00Z")
      (OffSeq [0; 0; 0; 0]) (OffSeq [0; 24; 0; 0]) (Some ["table"; "result"]%string)
      day_filter "id" (-7) "last" "1s" ["_time"]%string) as [[df|]|ex] eqn:E;
    try (vm_compute in E; discriminate).
  exists df. split; [reflexivity|].
  exact (query_database_dropped _ _ _ _ _ _ _ _ _ _ _ _ _ E).
Defined.

Lemma set_index_wf df key df' :
  df_wf df -> set_index df key = Ok df' -> df_wf df' /\ nrows df' = nrows df.
Proof.
  intros Hwf H. apply set_index_spec in H as [Hin Hcols].
  assert (Hn : nrows df' = nrows df) by (unfold nrows; exact (Hwf _ Hin)).
  split; [|exact Hn]. intros c Hc. rewrite Hcols in Hc. apply filter_In in Hc as [Hc _].
  rewrite Hn. exact (Hwf _ Hc).
Qed.

(** What [process_results] writes, for a frame whose columns all have one
    cell per row: the file of [current_date]'s day, a frame of at least 10
    rows before cleaning, indexed by [_time] (no longer a column), whose
    columns still have one cell per row, with no more rows than the input and
    no row left that is missing in every column. *)
Theorem process_results_written df d p df'
    (Hwf : df_wf df) (H : process_results df d = Ok (Written p df')) :
  p = csv_path d /\ (10 <= nrows df)%nat /\ ~ In "_time"%string (col_names df')
  /\ df_wf df' /\ (nrows df' <= nrows df)%nat
  /\ (forall i, (i < nrows df')%nat -> row_has_value df' i = true).
Proof.
  unfold process_results in H.
  destruct (Nat.eqb (df_size df) 0); [discriminate|].
  destruct (Nat.ltb (nrows df) 10) eqn:Hlt; [discriminate|].
  apply Nat.ltb_ge in Hlt.
  apply bind_Ok in H as (df1 & Hs & H). injection H as <- <-.
  destruct (set_index_wf _ _ _ Hwf Hs) as [Hwf1 Hn1].
  destruct (dropna_spec df1 Hwf1) as (_ & Hwf2 & Hrows & Hle).
  split; [reflexivity|]. split; [exact Hlt|]. split; [|split; [exact Hwf2|split; [lia|exact Hrows]]].
  rewrite dropna_names. intros Hin. apply (set_index_names _ _ _ Hs) in Hin as [_ Hne].
  exact (Hne eq_refl).
Qed.

Lemma sample_frame_wf : df_wf sample_frame.
Proof. intros c Hc. cbn in Hc. repeat destruct Hc as [<- | Hc]; try contradiction; reflexivity. Qed.

Lemma process_results_written_witness :
  exists p df', process_results sample_frame sample_day = Ok (Written p df')
    /\ p = csv_path sample_day /\ (10 <= nrows sample_frame)%nat
    /\ ~ In "_time"%string (col_names df') /\ df_wf df' /\ (nrows df' <= nrows sample_frame)%nat
    /\ (forall i, (i < nrows df')%nat -> row_has_value df' i = true).
Proof.
  destruct (process_results sample_frame sample_day) as [[|p df']|ex] eqn:E;
    try (vm_compute in E; discriminate).
  exists p, df'. split; [reflexivity|].
  exact (process_results_written _ _ _ _ sample_frame_wf E).
Defined.

(** [process_results] raises [KeyError] exactly when the frame is not empty,
    has at least 10 rows and no [_time] column; it raises nothing else. *)
Theorem process_results_KeyError df d :
  (process_results df d = Exc KeyError
   <-> df_size df <> 0%nat /\ (10 <= nrows df)%nat /\ ~ In "_time"%string (col_names df))
  /\ forall e, process_results df d = Exc e -> e = KeyError.
Proof.
  unfold process_results.
  destruct (Nat.eqb_spec (df_size df) 0) as [E0|E0].
  { split; [split; [discriminate | intros (H & _); contradiction] | discriminate]. }
  destruct (Nat.ltb_spec (nrows df) 10) as [Hl|Hl].
  { split; [split; [discriminate | intros (_ & H & _); lia] | discriminate]. }
  rewrite <- set_index_KeyError.
  destruct (set_index df "_time") as [df1|e] eqn:Es; cbn [bind].
  - split; [split; [discriminate | intros (_ & _ & H); discriminate] | discriminate].
  - destruct (set_index_ok_or_KeyError df "_time") as [Ek|[df1 Ek]]; rewrite Es in Ek;
      [|discriminate].
    injection Ek as ->. split; [tauto | intros e' H; injection H as <-; reflexivity].
Qed.

(** When the client returns no frame, [query_data_for_day] raises (reading
    [None.size] in [process_results]) instead of returning. *)
Theorem query_data_for_day_no_result d :
  exists e, query_data_for_day (fun _ => None) d = Exc e.
Proof.
  unfold query_data_for_day, query_database.
  destruct (construct_query_time_endpoints _ _ _ _) as [[ss es]|e]; cbn [bind];
    [|exists e; reflexivity].
  destruct (shift_string_time ss _) as [sl|e]; cbn [bind]; [|exists e; reflexivity].
  destruct (shift_string_time es _) as [el|e]; cbn [bind]; [|exists e; reflexivity].
  exists AttributeError. reflexivity.
Qed.

(** What [query_data_for_day] writes goes to the day's file, and has
    neither a [_time] column (it is the index) nor any column of
    [drop_list]. *)
Theorem query_data_for_day_written client d p df
    (H : query_data_for_day client d = Ok (Written p df)) :
  p = csv_path d /\ forall c, In c ("_time"%string :: drop_list) -> ~ In c (col_names df).
Proof.
  unfold query_data_for_day in H.
  apply bind_Ok in H as ([r|] & Hq & H); [|discriminate].
  destruct (query_database_Some _ _ _ _ _ _ _ _ _ _ _ _ _ Hq) as (q & r0 & l & _ & Hl & Hd).
  injection Hl as <-.
  apply drop_columns_names in Hd as [_ Hd].
  unfold process_results in H.
  destruct (Nat.eqb (df_size r) 0); [discriminate|].
  destruct (Nat.ltb (nrows r) 10); [discriminate|].
  apply bind_Ok in H as (df1 & Hs & H). injection H as <- <-.
  split; [reflexivity|]. intros c Hc Hin. rewrite dropna_names in Hin.
  apply (set_index_names _ _ _ Hs) in Hin as [Hin Hne].
  destruct Hc as [<- | Hc]; [exact (Hne eq_refl)|].
  exact (proj2 (Hd c Hin) Hc).
Qed.

Lemma query_data_for_day_written_witness :
  exists p df, query_data_for_day (fun _ : string => Some sample_frame) sample_day = Ok (Written p df)
    /\ p = csv_path sample_day
    /\ forall c, In c ("_time"%string :: drop_list) -> ~ In c (col_names df).
Proof.
  destruct (query_data_for_day (fun _ : string => Some sample_frame) sample_day) as [[|p df]|ex] eqn:E;
    try (vm_compute in E; discriminate).
  exists p, df. split; [reflexivity|].
  exact (query_data_for_day_written _ _ _ _ E).
Defined.

End QueryFacts.

Module ShiftFacts.
Import DtOrder DtRound StrRound DtArith GenLoop.

Lemma mk_td_in x : TD_MIN <= x <= TD_MAX -> mk_td x = Ok x.
Proof.
  intros H. unfold mk_td.
  replace ((TD_MIN <=? x) && (x <=? TD_MAX)) with true; [reflexivity|].
  symmetry. rewrite Bool.andb_true_iff, !Z.leb_le. exact H.
Qed.

Lemma us_diff_bound a b :
  valid_dtb a = true -> valid_dtb b = true -> TD_MIN <= dt_to_us a - dt_to_us b <= TD_MAX.
Proof.
  intros Ha Hb. pose proof (dt_to_us_range a Ha). pose proof (dt_to_us_range b Hb).
  pose proof (Z.div_mod (dt_to_us a) US_PER_DAY ltac:(unfold US_PER_DAY; lia)).
  pose proof (Z.mod_pos_bound (dt_to_us a) US_PER_DAY ltac:(unfold US_PER_DAY; lia)).
  pose proof (Z.div_mod (dt_to_us b) US_PER_DAY ltac:(unfold US_PER_DAY; lia)).
  pose proof (Z.mod_pos_bound (dt_to_us b) US_PER_DAY ltac:(unfold US_PER_DAY; lia)).
  unfold TD_MIN, TD_MAX, Cal.MAXORDINAL in *. unfold US_PER_DAY in *. lia.
Qed.

Lemma strftime_trunc d : strftime (trunc_us d) = strftime d.
Proof. destruct d. reflexivity. Qed.

Lemma trunc_valid d : valid_dtb d = true -> valid_dtb (trunc_us d) = true.
Proof. destruct d. apply valid_dtb_us0. Qed.

Lemma dt_to_us_trunc_us d :
  valid_dtb d = true -> dt_to_us (trunc_us d) = dt_to_us d - dt_to_us d mod 1000000.
Proof. exact (dt_to_us_trunc d). Qed.

Lemma dt_add_trunc x z td :
  valid_dtb x = true -> valid_dtb z = true -> td mod 1000000 = 0 ->
  dt_to_us z = dt_to_us x + td -> dt_add (trunc_us x) td = Ok (trunc_us z).
Proof.
  intros Vx Vz Ht Hz.
  assert (E : dt_to_us (trunc_us x) + td = dt_to_us (trunc_us z)).
  { rewrite !dt_to_us_trunc_us by assumption. rewrite Hz.
    rewrite Zplus_mod, Ht, Z.add_0_r, Z.mod_mod by lia.
    pose proof (Z.div_mod td 1000000 ltac:(lia)). lia. }
  rewrite dt_add_eq, E, (in_range_valid _ (trunc_valid _ Vz)).
  rewrite (dt_of_us_to_us _ (trunc_valid _ Vz)). reflexivity.
Qed.

Lemma shift_int_eq s n :
  n <> 0 ->
  shift_string_time s (PInt n)
  = (let* d := strptime_r s in
     let* r := py_add (PDatetime d) (PDelta (mkDeltaTime 0 n 0 0)) in
     py_strftime r).
Proof. destruct n; [contradiction | reflexivity | reflexivity]. Qed.

(** [shift_string_time(strftime(x), n)] for a nonzero hour count [n]: the
    instant [n] hours after [x], printed. *)
Lemma shift_int_spec x z n t :
  valid_dtb x = true -> valid_dtb z = true -> n <> 0 ->
  timedelta_dhms 0 n 0 0 = Ok t -> dt_to_us z = dt_to_us x + t ->
  shift_string_time (strftime x) (PInt n) = Ok (strftime z).
Proof.
  intros Vx Vz Hn Ht Hz. rewrite (shift_int_eq _ _ Hn).
  unfold strptime_r. rewrite (strptime_strftime x Vx). cbn [bind].
  cbn [py_add DeltaTime_radd DeltaTime_add]. unfold to_timedelta.
  cbn [days hours minutes seconds]. rewrite Ht. cbn [bind].
  destruct (timedelta_dhms_mult _ _ _ _ _ Ht) as [k Hk].
  assert (Hm : t mod 1000000 = 0) by (rewrite Hk; apply Z.mod_mul; lia).
  change (mkdt (year x) (month x) (day x) (hour x) (minute x) (second x) 0) with (trunc_us x).
  rewrite (dt_add_trunc x z t Vx Vz Hm Hz). cbn [bind py_strftime].
  rewrite strftime_trunc. reflexivity.
Qed.

Lemma shift_int_ok x n s' :
  valid_dtb x = true -> n <> 0 ->
  shift_string_time (strftime x) (PInt n) = Ok s' ->
  exists t z, timedelta_dhms 0 n 0 0 = Ok t /\ valid_dtb z = true
    /\ dt_to_us z = dt_to_us (trunc_us x) + t /\ s' = strftime z.
Proof.
  intros Vx Hn. rewrite (shift_int_eq _ _ Hn).
  unfold strptime_r. rewrite (strptime_strftime x Vx). cbn [bind].
  cbn [py_add DeltaTime_radd DeltaTime_add]. unfold to_timedelta.
  cbn [days hours minutes seconds].
  destruct (timedelta_dhms 0 n 0 0) as [t|e]; cbn [bind]; [|discriminate].
  change (mkdt (year x) (month x) (day x) (hour x) (minute x) (second x) 0) with (trunc_us x).
  destruct (dt_add (trunc_us x) t) as [z|e] eqn:Ez; cbn [bind py_strftime]; [|discriminate].
  intros H. injection H as <-. apply dt_add_spec in Ez as [Vz Hz].
  exists t, z. auto.
Qed.



(** Shifting a printed datetime by [n] hours and the result by [-n] hours
    gives the printed datetime back. *)
Theorem shift_string_time_roundtrip (d : datetime) (n : Z) (s' : string)
    (Hd : valid_dtb d = true) (H : shift_string_time (strftime d) (PInt n) = Ok s') :
  shift_string_time s' (PInt (- n)) = Ok (strftime d).
Proof.
  destruct (Z.eq_dec n 0) as [->|Hn].
  { injection H as <-. reflexivity. }
  destruct (shift_int_ok _ _ _ Hd Hn H) as (t & z & Ht & Vz & Hz & ->).
  rewrite <- strftime_trunc.
  apply (shift_int_spec z (trunc_us d) (- n) (- t) Vz (trunc_valid _ Hd) ltac:(lia)).
  - pose proof (us_diff_bound _ _ (trunc_valid _ Hd) Vz) as B.
    unfold timedelta_dhms in Ht |- *. apply mk_td_ok in Ht. subst t.
    match goal with |- mk_td ?x = _ =>
      replace x with (- ((((0 * 24 + n) * 60 + 0) * 60 + 0) * 1000000)) by lia end.
    apply mk_td_in. lia.
  - lia.
Qed.

Lemma shift_string_time_roundtrip_witness :
  shift_string_time (strftime (mkdt 2024 3 1 3 0 0 0)) (PInt (-8)) = Ok "2024-02-29T19:00:00Z"%string
  /\ shift_string_time "2024-02-29T19:00:00Z"%string (PInt (- (-8))) = Ok (strftime (mkdt 2024 3 1 3 0 0 0)).
Proof.
  split; [vm_compute; reflexivity|].
  apply (shift_string_time_roundtrip (mkdt 2024 3 1 3 0 0 0) (-8)).
  - vm_compute. reflexivity.
  - vm_compute. reflexivity.
Defined.

(** The local endpoints [query_database] logs are
    [shift_string_time(start_time_utc, tz_offset)] and
    [shift_string_time(end_time_utc, tz_offset)]: they are the endpoints
    [construct_query_time_endpoints] gives with [tz_offset=0]. *)
Theorem query_local_endpoints (r : pyval) (q : datetime) (a b : offset_arg)
    (s e : DeltaTime) (tz : Z) (ss es ss0 es0 : string)
    (Hr : ref_denotes r q) (Ha : offset_denotes a s) (Hb : offset_denotes b e)
    (H : construct_query_time_endpoints r a b tz = Ok (ss, es))
    (H0 : construct_query_time_endpoints r a b 0 = Ok (ss0, es0)) :
  shift_string_time ss (PInt tz) = Ok ss0 /\ shift_string_time es (PInt tz) = Ok es0.
Proof.
  rewrite (endpoints_formula_eq _ _ _ _ _ _ _ Hr Ha Hb) in H.
  rewrite (endpoints_formula_eq _ _ _ _ _ _ _ Hr Ha Hb) in H0.
  destruct (endpoints_formula_ok _ _ _ _ _ _ H)
    as (tzd & ts & te & x & y & Etz & Es & Ee & -> & -> & Vx & Vy & Hx & Hy).
  destruct (endpoints_formula_ok _ _ _ _ _ _ H0)
    as (z0 & ts' & te' & x0 & y0 & Ez0 & Es' & Ee' & -> & -> & Vx0 & Vy0 & Hx0 & Hy0).
  rewrite Es in Es'. rewrite Ee in Ee'. injection Es' as <-. injection Ee' as <-.
  apply mk_td_ok in Ez0. cbn in Ez0. subst z0.
  destruct (Z.eq_dec tz 0) as [->|Htz].
  - apply mk_td_ok in Etz. cbn in Etz. subst tzd.
    assert (x = x0) as <- by (apply dt_to_us_inj; auto; lia).
    assert (y = y0) as <- by (apply dt_to_us_inj; auto; lia).
    split; reflexivity.
  - split; apply (shift_int_spec _ _ tz tzd); auto; lia.
Qed.

Lemma query_local_endpoints_witness :
  shift_string_time "2024-05-16T15:00:00Z"%string (PInt (-7)) = Ok "2024-05-16T08:00:00Z"%string
  /\ shift_string_time "2024-05-16T18:00:00Z"%string (PInt (-7)) = Ok "2024-05-16T11:00:00Z"%string.
Proof.
  apply (query_local_endpoints (PStr "2024-05-16T10:00:00Z") (mkdt 2024 5 16 10 0 0 0)
           (OffSeq [0; -2; 0; 0]) (OffSeq [0; 1; 0; 0])
           (mkDeltaTime 0 (-2) 0 0) (mkDeltaTime 0 1 0 0) (-7)).
  - right. exists "2024-05-16T10:00:00Z"%string. split; [reflexivity | vm_compute; reflexivity].
  - right. reflexivity.
  - right. reflexivity.
  - vm_compute. reflexivity.
  - vm_compute. reflexivity.
Defined.

(** [extract_date] of a printed datetime is the first ten characters,
    [YYYY-MM-DD]; the batch loop of [src/main.py] writes a result of at least
    [data_threshold] rows to the file named after them and skips a shorter
    one. *)
Theorem extract_date_strftime (d : datetime) (df : dataframe) (Hd : valid_dtb d = true) :
  extract_date (strftime d) = Ok (substring 0 10 (strftime d))
  /\ batched_step (strftime d) df
     = (if Nat.leb data_threshold (nrows df)
        then Ok (Written ("out/prototype-zero_realtime-data_" ++ substring 0 10 (strftime d)
                          ++ ".csv")%string df)
        else Ok Skipped).
Proof.
  assert (E : extract_date (strftime d) = Ok (substring 0 10 (strftime d))).
  { unfold extract_date, strptime_r. rewrite (strptime_strftime d Hd). reflexivity. }
  split; [exact E|]. unfold batched_step. rewrite E. reflexivity.
Qed.

Lemma extract_date_strftime_witness :
  extract_date (strftime (mkdt 2024 2 1 0 0 0 0)) = Ok "2024-02-01"%string
  /\ batched_step (strftime (mkdt 2024 2 1 0 0 0 0)) sample_frame = Ok Skipped.
Proof.
  destruct (extract_date_strftime (mkdt 2024 2 1 0 0 0 0) sample_frame
              ltac:(vm_compute; reflexivity)) as [E1 E2].
  split; [exact E1 | exact E2].
Defined.

(** Adding a [DeltaTime] to a [datetime] gives the same on either side of
    [+] ([__radd__] is [__add__]), and subtracting the same [DeltaTime] from
    the sum ([datetime - DeltaTime] goes through [__rsub__]) gives the
    [datetime] back. *)
Theorem DeltaTime_datetime_add_sub (d : datetime) (o : DeltaTime) (r : pyval)
    (Hd : valid_dtb d = true) (H : py_add (PDatetime d) (PDelta o) = Ok r) :
  py_add (PDelta o) (PDatetime d) = Ok r /\ py_sub r (PDelta o) = Ok (PDatetime d).
Proof.
  cbn [py_add DeltaTime_radd DeltaTime_add] in H |- *.
  destruct (to_timedelta o) as [a|ex] eqn:Ea; cbn [bind] in H |- *; [|discriminate].
  destruct (dt_add d a) as [x|ex] eqn:Ex; cbn [bind] in H |- *; [|discriminate].
  injection H as <-. split; [reflexivity|].
  cbn [py_sub DeltaTime_rsub DeltaTime_sub]. rewrite Ea. cbn [bind].
  apply dt_add_spec in Ex as [Vx Hx].
  unfold dt_sub. rewrite mk_td_in by (pose proof (us_diff_bound _ _ Hd Vx); lia).
  cbn [bind]. rewrite dt_add_eq.
  replace (dt_to_us x + - a) with (dt_to_us d) by lia.
  rewrite (in_range_valid _ Hd), (dt_of_us_to_us _ Hd). reflexivity.
Qed.

Lemma DeltaTime_datetime_add_sub_witness :
  py_add (PDelta (mkDeltaTime 0 (-2) 0 0)) (PDatetime (mkdt 2024 5 16 10 0 0 0))
    = Ok (PDatetime (mkdt 2024 5 16 8 0 0 0))
  /\ py_sub (PDatetime (mkdt 2024 5 16 8 0 0 0)) (PDelta (mkDeltaTime 0 (-2) 0 0))
    = Ok (PDatetime (mkdt 2024 5 16 10 0 0 0)).
Proof.
  apply (DeltaTime_datetime_add_sub (mkdt 2024 5 16 10 0 0 0) (mkDeltaTime 0 (-2) 0 0)).
  - vm_compute. reflexivity.
  - vm_compute. reflexivity.
Defined.

End ShiftFacts.
